(** * jenkins_agent.py: a shallow embedding and its checked properties

    The program is sequential HTTP glue.  It is modelled here as a small
    state-and-exception monad over an abstract outside world (metadata
    service, Jenkins master, file system, child processes).  Every call
    the program makes to the HTTP library is appended to a trace and every
    log call to a log, so that statements such as "no further request is
    made" can be read off the final state. *)

From Stdlib Require Import Bool List ZArith NArith Lia.
From Stdlib.Strings Require Import Ascii String Byte.
From Stdlib Require Import Floats.SpecFloat.
Import ListNotations.

Local Open Scope list_scope.
Local Open Scope string_scope.

Set Implicit Arguments.
Set Warnings "-register-all".

(** ** Python strings

    A Python [str] is represented by its UTF-8 encoding held in a Rocq
    [string] (one [ascii] per byte).  The operations the program uses on
    strings ([strip('/')], [split(':')], [==] and concatenation) only look for
    ASCII characters, which never occur inside a multi-byte UTF-8 sequence, so
    they act on the encoding exactly as they act on the code points. *)

Module PyStr.

Fixpoint mem (c : ascii) (chars : string) : bool :=
  match chars with
  | EmptyString => false
  | String d chars' => Ascii.eqb c d || mem c chars'
  end.

(** [s.lstrip(chars)]: drop leading characters that occur in [chars]. *)
Fixpoint lstrip (chars s : string) : string :=
  match s with
  | EmptyString => EmptyString
  | String a s' => if mem a chars then lstrip chars s' else s
  end.

(** [s.rstrip(chars)]: drop trailing characters that occur in [chars]. *)
Fixpoint rstrip (chars s : string) : string :=
  match s with
  | EmptyString => EmptyString
  | String a s' =>
      match rstrip chars s' with
      | EmptyString => if mem a chars then EmptyString else String a EmptyString
      | r => String a r
      end
  end.

(** [s.strip(chars)]: both ends. *)
Definition strip (chars s : string) : string := rstrip chars (lstrip chars s).

(** [s.split(sep)] for a one-character separator: the pieces between the
    occurrences of [sep]; always at least one piece. *)
Fixpoint split (sep : ascii) (s : string) : list string :=
  match s with
  | EmptyString => [EmptyString]
  | String a s' =>
      if Ascii.eqb a sep then EmptyString :: split sep s'
      else match split sep s' with
           | p :: ps => String a p :: ps
           | [] => [String a EmptyString]
           end
  end.

(** [s.count(c)] for a one-character [c]. *)
Fixpoint count (c : ascii) (s : string) : nat :=
  match s with
  | EmptyString => 0
  | String a s' => (if Ascii.eqb a c then 1 else 0) + count c s'
  end.

Definition startswith (c : ascii) (s : string) : bool :=
  match s with
  | String a _ => Ascii.eqb a c
  | EmptyString => false
  end.

Fixpoint endswith (c : ascii) (s : string) : bool :=
  match s with
  | EmptyString => false
  | String a EmptyString => Ascii.eqb a c
  | String _ s' => endswith c s'
  end.

(** What an f-string prints for a value that is a [str] or [None]. *)
Definition fmt (v : option string) : string :=
  match v with
  | Some s => s
  | None => "None"
  end.

End PyStr.

(** ** [bytes.decode('utf-8')]

    Strict decoding: shortest forms only, no surrogates, nothing above
    U+10FFFF.  A body that is not well formed raises [UnicodeDecodeError]. *)

Module Utf8.

Local Open Scope N_scope.

Definition between (lo hi b : N) : bool := (lo <=? b) && (b <=? hi).

Definition cont (b : N) : bool := between 128 191 b.

Fixpoint well_formed (bs : list N) : bool :=
  match bs with
  | [] => true
  | b0 :: r0 =>
      if b0 <=? 127 then well_formed r0
      else
        match r0 with
        | [] => false
        | b1 :: r1 =>
            if between 194 223 b0 then cont b1 && well_formed r1
            else
              match r1 with
              | [] => false
              | b2 :: r2 =>
                  if between 224 239 b0 then
                    (if b0 =? 224 then between 160 191 b1
                     else if b0 =? 237 then between 128 159 b1
                     else cont b1)
                    && cont b2 && well_formed r2
                  else
                    match r2 with
                    | [] => false
                    | b3 :: r3 =>
                        between 240 244 b0
                        && (if b0 =? 240 then between 144 191 b1
                            else if b0 =? 244 then between 128 143 b1
                            else cont b1)
                        && cont b2 && cont b3 && well_formed r3
                    end
              end
        end
  end.

Definition decode (content : list byte) : option string :=
  if well_formed (map Byte.to_N content)
  then Some (string_of_list_byte content)
  else None.

End Utf8.

(** ** Python values

    What [response.json()] can return and what the program puts in request
    payloads.  A [dict] keeps insertion order, which the serialisers of the
    payloads see, hence the association list; it holds a key once. *)

Inductive pyval : Type :=
| PNone
| PBool (b : bool)
| PInt (z : Z)
| PFloat (f : spec_float)
| PStr (s : string)
| PList (items : list pyval)
| PDict (entries : list (string * pyval)).

Module Py.

Definition of_str (v : option string) : pyval :=
  match v with
  | Some s => PStr s
  | None => PNone
  end.

(** [d.get(key, default)] on the entries of a dict. *)
Fixpoint dict_get (entries : list (string * pyval)) (key : string)
         (default : pyval) : pyval :=
  match entries with
  | [] => default
  | (k, v) :: rest => if String.eqb k key then v else dict_get rest key default
  end.

(** [v == name] where [name] is a [str] or [None]: a [str] is equal to
    equal strings only, [None] to [None] only. *)
Definition eq_str (v : pyval) (name : option string) : bool :=
  match v, name with
  | PStr s, Some n => String.eqb s n
  | PNone, None => true
  | _, _ => false
  end.

(** The characters of a [str]: a new character starts at every byte that
    is not a UTF-8 continuation byte. *)
Fixpoint chars (s : string) : list string :=
  match s with
  | EmptyString => []
  | String a s' =>
      match chars s' with
      | c :: cs =>
          match c with
          | String b _ =>
              if Utf8.cont (N_of_ascii b) then String a c :: cs
              else String a EmptyString :: c :: cs
          | EmptyString => String a EmptyString :: cs
          end
      | [] => [String a EmptyString]
      end
  end.

(** [iter(v)]: what a [for] loop over [v] visits; [None] when [v] is not
    iterable ([TypeError]). *)
Definition iter (v : pyval) : option (list pyval) :=
  match v with
  | PList items => Some items
  | PDict entries => Some (map (fun kv => PStr (fst kv)) entries)
  | PStr s => Some (map PStr (chars s))
  | PNone | PBool _ | PInt _ | PFloat _ => None
  end.

End Py.

(** ** HTTP messages, XML trees, exceptions *)

Inductive Method : Type := GET | POST.

Inductive Body : Type :=
| NoBody
| Form (fields : list (string * string))
| Raw (data : string).

Record Request : Type := {
  method : Method;
  url : string;
  headers : list (string * string);
  auth : option (string * string);
  body : Body;
  allow_redirects : bool }.

(** Of a response the program reads the status, the body and [json()]. *)
Record Response : Type := {
  status_code : Z;
  content : list byte }.

(** [requests.Session] with the one attribute the program sets. *)
Record Session : Type := { session_auth : string * string }.

(** An [xml.etree.ElementTree.Element]: tag, text and child elements. *)
Inductive Element : Type :=
| Elem (tag : string) (text : option string) (children : list Element).

Module ET.

Definition tag (e : Element) : string := let 'Elem t _ _ := e in t.
Definition text (e : Element) : option string := let 'Elem _ t _ := e in t.
Definition children (e : Element) : list Element := let 'Elem _ _ c := e in c.

(** [e.find(tag)] for a plain tag name: the first direct child carrying
    that tag, or [None]. *)
Definition find (e : Element) (t : string) : option Element :=
  List.find (fun c => String.eqb (tag c) t) (children e).

End ET.

Inductive Exn : Type :=
| HTTPError (status : Z)
| ConnectionError
| ValueError
| AttributeError
| TypeError
| UnicodeDecodeError
| JSONDecodeError
| ParseError.

Inductive Result (A : Type) : Type :=
| Ok (a : A)
| Raise (e : Exn).

Arguments Ok {A} a.
Arguments Raise {A} e.

Inductive Level : Type := INFO | CRITICAL.

Inductive Event : Type :=
| EvHttp (req : Request) (resp : option Response)
| EvSystem (command : string).

(** ** The outside world

    Everything the program does not compute itself: the HTTP peers (a
    request changes the world and yields a response, or no response at all
    when the transport fails), the file system, child processes, and the
    library parsers and serialisers whose output the program passes on
    without looking at it.

    [http_send] is the outcome of one call of the HTTP library
    ([requests.get], [session.get], [session.post]) with the arguments the
    program passes: the response the call returns, or none when the call
    raises instead.  What the library does within a call is on the side of the
    world: it follows redirects when [allow_redirects] is set, so that the
    response is the last one of a chain, it normalises the URL before it goes
    on the wire, and it may refuse a request before sending anything (a URL
    without a scheme, credentials it cannot encode). *)

Class Platform : Type := {
  World : Type;
  http_send : Request -> World -> option Response * World;
  path_exists : string -> World -> bool;
  os_system : string -> World -> World;
  json_loads : list byte -> option pyval;
  xml_fromstring : string -> option Element;
  json_dumps : pyval -> string;
  urlencode : list (string * pyval) -> string }.

(** The constants of [requests.codes] the program names. *)
Module codes.
Definition ok : Z := 200.
Definition found : Z := 302.
End codes.

Definition GCE_METADATA_ENDPOINT : string :=
  "http://metadata.google.internal/computeMetadata/v1/instance".
Definition JENKINS_AGENT_JAR_PATH : string := "jnlpJars/agent.jar".
Definition JENKINS_AGENT_JAR_LOCAL_PATH : string := "/tmp/agent.jar".
Definition JENKINS_AGENT_LOCAL_HOME_PATH : string := "/home/ubuntu".

Definition dq : string := String "034"%char EmptyString.
Definition nl : string := String "010"%char EmptyString.

(** The dict [load_instance_metadata] returns.  A value fetched from the
    metadata service is a [str], or Python's [None] when the fetch fell off the
    end of [load_instance_metadata_item]. *)
Record InstanceData : Type := {
  jenkins_url : string;
  name : option string;
  jnlp_credentials : option string;
  jenkins_label : option string }.

(** [get_credentialed_session]: no request is made here, so the function
    is pure.  Unpacking [split(':')] into two names needs exactly two pieces;
    [None] has no [split]. *)
Definition get_credentialed_session (credentials : option string)
  : Result Session :=
  match credentials with
  | None => Raise AttributeError
  | Some c =>
      match PyStr.split ":" c with
      | [username; password] => Ok {| session_auth := (username, password) |}
      | _ => Raise ValueError
      end
  end.

(** The statuses for which [Response.raise_for_status] of the requests
    library raises [HTTPError]: 4xx and 5xx; for any other it does nothing. *)
Definition is_error_status (status : Z) : bool :=
  ((400 <=? status) && (status <? 600))%Z.

Section Program.

Context {P : Platform}.

Record State : Type := {
  world : World;
  trace : list Event;
  log : list (Level * string) }.

Definition M (A : Type) : Type := State -> Result A * State.

Definition ret {A} (a : A) : M A := fun st => (Ok a, st).

Definition raise {A} (e : Exn) : M A := fun st => (Raise e, st).

Definition bind {A B} (m : M A) (k : A -> M B) : M B :=
  fun st =>
    match m st with
    | (Ok a, st') => k a st'
    | (Raise e, st') => (Raise e, st')
    end.

Definition lift {A} (r : Result A) : M A := fun st => (r, st).

Notation "x <- m ;; k" := (bind m (fun x => k))
  (at level 61, m at next level, right associativity).
Notation "m ;;; k" := (bind m (fun _ => k))
  (at level 61, right associativity).

Definition emit (lvl : Level) (msg : string) : M unit :=
  fun st =>
    (Ok tt, {| world := world st; trace := trace st;
               log := log st ++ [(lvl, msg)] |}).

Definition logger_info : string -> M unit := emit INFO.
Definition logger_critical : string -> M unit := emit CRITICAL.

(** One call of the HTTP library.  The call is recorded, with the
    arguments as the program passed them, whether or not a response comes
    back; an event of the trace is thus a call, not a request on the wire.  A
    call that returns no response raises; which exception it is (connection
    failure, timeout, a request the library refused before sending) is not
    told apart: [ConnectionError] stands for all of them. *)
Definition send (req : Request) : M Response :=
  fun st =>
    let (resp, w) := http_send req (world st) in
    let st' := {| world := w; trace := trace st ++ [EvHttp req resp];
                  log := log st |} in
    match resp with
    | Some r => (Ok r, st')
    | None => (Raise ConnectionError, st')
    end.

Definition os_path_exists (path : string) : M bool :=
  fun st => (Ok (path_exists path (world st)), st).

Definition system (command : string) : M unit :=
  fun st =>
    (Ok tt, {| world := os_system command (world st);
               trace := trace st ++ [EvSystem command];
               log := log st |}).

Definition raise_for_status (r : Response) : M unit :=
  if is_error_status (status_code r) then raise (HTTPError (status_code r))
  else ret tt.

Definition decode_utf8 (bs : list byte) : M string :=
  match Utf8.decode bs with
  | Some s => ret s
  | None => raise UnicodeDecodeError
  end.

(** The requests the program builds. *)
Definition metadata_request (path : string) : Request :=
  {| method := GET;
     url := GCE_METADATA_ENDPOINT ++ "/" ++ path;
     headers := [("Metadata-Flavor", "Google")];
     auth := None;
     body := NoBody;
     allow_redirects := true |}.

Definition session_get (session : Session) (u : string) : Request :=
  {| method := GET; url := u; headers := [];
     auth := Some (session_auth session);
     body := NoBody; allow_redirects := true |}.

Definition session_post (session : Session) (u : string) (b : Body)
           (redirects : bool) : Request :=
  {| method := POST; url := u; headers := [];
     auth := Some (session_auth session);
     body := b; allow_redirects := redirects |}.

Definition load_instance_metadata_item (path : string) : M (option string) :=
  response <- send (metadata_request path) ;;
  if (status_code response =? codes.ok)%Z then
    s <- decode_utf8 (content response) ;;
    ret (Some s)
  else
    raise_for_status response ;;;
    ret None.

Definition load_instance_metadata : M InstanceData :=
  logger_info "Retrieving GCE internal computeMetadata" ;;;
  node_name <- load_instance_metadata_item "name" ;;
  jenkins_url <- load_instance_metadata_item "attributes/JENKINS_URL" ;;
  jnlp_credentials <- load_instance_metadata_item "attributes/JNLP_CREDENTIALS" ;;
  jenkins_label <- load_instance_metadata_item "attributes/JENKINS_AGENT_LABEL" ;;
  match jenkins_url with
  | None => raise AttributeError
  | Some u =>
      ret {| jenkins_url := PyStr.strip "/" u;
             name := node_name;
             jnlp_credentials := jnlp_credentials;
             jenkins_label := jenkins_label |}
  end.

(** The request of line 88 and the loop of lines 95-98. *)
Definition node_list_url (jenkins_url : string) : string :=
  jenkins_url ++ "/computer/api/json?tree=computer[displayName]".

Definition node_list_request (jenkins_url : string) (session : Session)
  : Request :=
  session_get session (node_list_url jenkins_url).

Fixpoint scan_computers (name : option string) (computers : list pyval)
  : M bool :=
  match computers with
  | [] => ret false
  | computer :: rest =>
      match computer with
      | PDict entries =>
          if Py.eq_str (Py.dict_get entries "displayName" PNone) name then
            logger_info ("Worker " ++ PyStr.fmt name ++ " already registered") ;;;
            ret true
          else scan_computers name rest
      | _ => raise AttributeError
      end
  end.

Definition _is_already_registered (jenkins_url : string)
           (name : option string) (session : Session) : M bool :=
  logger_info ("Checking if worker " ++ PyStr.fmt name
               ++ " is already registered") ;;;
  response <- send (node_list_request jenkins_url session) ;;
  (if negb (status_code response =? codes.ok)%Z then
     logger_critical ("Error checking for existing workers at URL: "
                      ++ node_list_url jenkins_url) ;;;
     raise_for_status response
   else ret tt) ;;;
  node_list <- match json_loads (content response) with
               | Some v => ret v
               | None => raise JSONDecodeError
               end ;;
  computers <- match node_list with
               | PDict entries => ret (Py.dict_get entries "computer" (PList []))
               | _ => raise AttributeError
               end ;;
  items <- match Py.iter computers with
           | Some items => ret items
           | None => raise TypeError
           end ;;
  scan_computers name items.

Definition delete_url (jenkins_url : string) (name : option string) : string :=
  jenkins_url ++ "/computer/" ++ PyStr.fmt name ++ "/doDelete".

Definition delete_request (jenkins_url : string) (name : option string)
           (session : Session) : Request :=
  session_post session (delete_url jenkins_url name)
    (Form [("json", "{" ++ dq ++ "Submit" ++ dq ++ ": " ++ dq ++ "Yes" ++ dq ++ "}");
           ("Submit", "Yes")])
    false.

Definition _deregister_with_jenkins_master (jenkins_url : string)
           (name credentials : option string) : M unit :=
  logger_info ("De-registering worker " ++ PyStr.fmt name
               ++ " from Jenkins " ++ jenkins_url) ;;;
  session <- lift (get_credentialed_session credentials) ;;
  delete_r <- send (delete_request jenkins_url name session) ;;
  if (status_code delete_r =? codes.found)%Z then
    logger_info ("Worker " ++ PyStr.fmt name
                 ++ " successfully de-registered from Jenkins " ++ jenkins_url)
  else
    registered <- _is_already_registered jenkins_url name session ;;
    if negb registered then
      logger_info ("Worker " ++ PyStr.fmt name ++ " already de-registered")
    else
      logger_critical ("Error de-registering jenkins worker at URL: "
                       ++ delete_url jenkins_url name) ;;;
      raise_for_status delete_r.

(** [_do_registration]: the query string of the create request. *)
Definition descriptor : string := "hudson.slaves.DumbSlave$DescriptorImpl".

Definition create_params (name jenkins_label : option string)
  : list (string * pyval) :=
  [("name", Py.of_str name);
   ("type", PStr descriptor);
   ("json", PStr (json_dumps (PDict
      [("name", Py.of_str name);
       ("nodeDescription", PNone);
       ("numExecutors", PInt 1);
       ("remoteFS", PStr JENKINS_AGENT_LOCAL_HOME_PATH);
       ("labelString", Py.of_str jenkins_label);
       ("mode", PStr "NORMAL");
       ("type", PStr descriptor);
       ("retentionStrategy",
         PDict [("stapler-class", PStr "hudson.slaves.RetentionStrategy$Always")]);
       ("nodeProperties", PDict [("stapler-class-bag", PStr "true")]);
       ("launcher",
         PDict [("stapler-class", PStr "hudson.slaves.JNLPLauncher")])])))].

Definition create_url (jenkins_url : string) (name jenkins_label : option string)
  : string :=
  jenkins_url ++ "/computer/doCreateItem?"
  ++ urlencode (create_params name jenkins_label).

Definition create_request (jenkins_url : string)
           (name jenkins_label : option string) (session : Session) : Request :=
  session_post session (create_url jenkins_url name jenkins_label) NoBody false.

Definition jenkins_env : list (string * string) :=
  [("HOME", JENKINS_AGENT_LOCAL_HOME_PATH)].

Definition jenkins_env_string : string :=
  String.concat ""
    (map (fun kv => "<string>" ++ fst kv ++ "</string><string>" ++ snd kv
                    ++ "</string>") jenkins_env).

Fixpoint spaces (n : nat) : string :=
  match n with
  | O => EmptyString
  | S n' => String " " (spaces n')
  end.

Definition xml_line (depth : nat) (s : string) : string :=
  spaces (4 * depth) ++ s ++ nl.

Definition config_xml (name jenkins_label : option string) : string :=
  nl
  ++ xml_line 1 "<slave>"
  ++ xml_line 2 ("<name>" ++ PyStr.fmt name ++ "</name>")
  ++ xml_line 2 "<description/>"
  ++ xml_line 2 ("<remoteFS>" ++ JENKINS_AGENT_LOCAL_HOME_PATH ++ "</remoteFS>")
  ++ xml_line 2 "<numExecutors>1</numExecutors>"
  ++ xml_line 2 "<mode>EXCLUSIVE</mode>"
  ++ xml_line 2 ("<retentionStrategy class=" ++ dq
                 ++ "hudson.slaves.RetentionStrategy$Always" ++ dq ++ "/>")
  ++ xml_line 2 ("<launcher class=" ++ dq ++ "hudson.slaves.JNLPLauncher"
                 ++ dq ++ ">")
  ++ xml_line 3 "<webSocket>true</webSocket>"
  ++ xml_line 2 "</launcher>"
  ++ xml_line 2 ("<label>" ++ PyStr.fmt jenkins_label ++ "</label>")
  ++ xml_line 2 "<nodeProperties>"
  ++ xml_line 3 "<hudson.slaves.EnvironmentVariablesNodeProperty>"
  ++ xml_line 4 ("<envVars serialization=" ++ dq ++ "custom" ++ dq ++ ">")
  ++ xml_line 5 "<unserializable-parents/>"
  ++ xml_line 5 "<tree-map>"
  ++ xml_line 6 "<default>"
  ++ xml_line 7 ("<comparator class=" ++ dq
                 ++ "hudson.util.CaseInsensitiveComparator" ++ dq ++ "/>")
  ++ xml_line 6 "</default>"
  ++ xml_line 6 "<int>1</int>"
  ++ xml_line 6 jenkins_env_string
  ++ xml_line 5 "</tree-map>"
  ++ xml_line 4 "</envVars>"
  ++ xml_line 3 "</hudson.slaves.EnvironmentVariablesNodeProperty>"
  ++ xml_line 2 "</nodeProperties>"
  ++ xml_line 1 "</slave>"
  ++ spaces 4.

Definition update_url (jenkins_url : string) (name : option string) : string :=
  jenkins_url ++ "/computer/" ++ PyStr.fmt name ++ "/config.xml".

Definition update_request (jenkins_url : string)
           (name jenkins_label : option string) (session : Session) : Request :=
  session_post session (update_url jenkins_url name)
    (Raw (config_xml name jenkins_label)) false.

Definition _do_registration (jenkins_url : string) (name : option string)
           (session : Session) (jenkins_label : option string) : M unit :=
  logger_info ("Registering worker " ++ PyStr.fmt name
               ++ " with Jenkins " ++ jenkins_url) ;;;
  r <- send (create_request jenkins_url name jenkins_label session) ;;
  (if negb (status_code r =? codes.found)%Z then
     logger_critical ("Error registering jenkins worker at URL: "
                      ++ create_url jenkins_url name jenkins_label) ;;;
     raise_for_status r
   else ret tt) ;;;
  logger_info ("Updating " ++ update_url jenkins_url name) ;;;
  response <- send (update_request jenkins_url name jenkins_label session) ;;
  if negb (status_code response =? codes.ok)%Z then raise_for_status response
  else ret tt.

Definition handle_shutdown : M unit :=
  data <- load_instance_metadata ;;
  _deregister_with_jenkins_master
    (jenkins_url data) (name data) (jnlp_credentials data).

Definition jnlp_url (jenkins_url : string) (name : option string) : string :=
  jenkins_url ++ "/computer/" ++ PyStr.fmt name ++ "/jenkins-agent.jnlp".

Definition secret_request (jenkins_url : string) (name : option string)
           (session : Session) : Request :=
  session_get session (jnlp_url jenkins_url name).

(** [root.find('application-desc').find('argument').text]: [find] and
    [text] on [None] raise [AttributeError]; the text of an element without
    text is [None]. *)
Definition extract_secret (root : Element) : M (option string) :=
  match ET.find root "application-desc" with
  | None => raise AttributeError
  | Some desc =>
      match ET.find desc "argument" with
      | None => raise AttributeError
      | Some argument => ret (ET.text argument)
      end
  end.

Definition _get_jnlp_secret (jenkins_url : string) (name : option string)
           (session : Session) : M (option string) :=
  logger_info ("Retrieving jnlp secret for worker " ++ PyStr.fmt name) ;;;
  response <- send (secret_request jenkins_url name session) ;;
  (if negb (status_code response =? codes.ok)%Z then
     logger_critical ("Error fetching " ++ jnlp_url jenkins_url name) ;;;
     raise_for_status response
   else ret tt) ;;;
  xml_content <- decode_utf8 (content response) ;;
  root <- match xml_fromstring xml_content with
          | Some root => ret root
          | None => raise ParseError
          end ;;
  extract_secret root.

Definition wget_command (jenkins_url : string) : string :=
  "wget " ++ jenkins_url ++ "/" ++ JENKINS_AGENT_JAR_PATH
  ++ " -O " ++ JENKINS_AGENT_JAR_LOCAL_PATH.

Definition java_jar_agent_command (jenkins_url : string)
           (name jnlp_secret : option string) : string :=
  "java -jar " ++ JENKINS_AGENT_JAR_LOCAL_PATH
  ++ " -noReconnect"
  ++ " -jnlpUrl " ++ jnlp_url jenkins_url name
  ++ " -secret " ++ PyStr.fmt jnlp_secret.

Definition handle_start : M unit :=
  data <- load_instance_metadata ;;
  let name := name data in
  let jenkins_url := jenkins_url data in
  let jnlp_credentials := jnlp_credentials data in
  let jenkins_label := jenkins_label data in
  jar_present <- os_path_exists JENKINS_AGENT_JAR_LOCAL_PATH ;;
  (if negb jar_present then
     logger_info ("Fetching " ++ jenkins_url ++ "/" ++ JENKINS_AGENT_JAR_PATH) ;;;
     system (wget_command jenkins_url)
   else ret tt) ;;;
  session <- lift (get_credentialed_session jnlp_credentials) ;;
  registered <- _is_already_registered jenkins_url name session ;;
  (if negb registered then
     _do_registration jenkins_url name session jenkins_label
   else ret tt) ;;;
  jnlp_secret <- _get_jnlp_secret jenkins_url name session ;;
  logger_info "Starting agent and connecting over jnlp" ;;;
  system (java_jar_agent_command jenkins_url name jnlp_secret).

End Program.

(** ** Vocabulary of the statements *)

Section Vocabulary.

Context {P : Platform}.

(** The metadata service answers the fetch of [path] with status 200 and
    a body that decodes to [text], taking the world from [w] to [w']. *)
Definition metadata_answers (path text : string) (w w' : World) : Prop :=
  exists r,
    http_send (metadata_request path) w = (Some r, w')
    /\ status_code r = codes.ok
    /\ Utf8.decode (content r) = Some text.

(** The events a computation adds to the trace all satisfy [Q]. *)
Definition only_emits {A} (Q : Event -> Prop) (m : M A) : Prop :=
  forall st, exists evs,
    trace (snd (m st)) = (trace st ++ evs)%list /\ Forall Q evs.

(** The state in which [handle_start] builds its session: the one the
    metadata load left, after the agent jar was fetched if it was missing. *)
Definition after_jar_step (jenkins_url : string) (st : State) : State :=
  if path_exists JENKINS_AGENT_JAR_LOCAL_PATH (world st) then st
  else
    {| world := os_system (wget_command jenkins_url) (world st);
       trace := trace st ++ [EvSystem (wget_command jenkins_url)];
       log := log st
              ++ [(INFO, "Fetching " ++ jenkins_url ++ "/"
                         ++ JENKINS_AGENT_JAR_PATH)] |}.

(** In the run of [handle_start] from [st] the existence check is reached,
    with the loaded [data] and the [session] built from its credentials, and
    it returns [registered]. *)
Definition check_returns (st : State) (data : InstanceData)
           (session : Session) (registered : bool) : Prop :=
  exists st0 st2,
    load_instance_metadata st = (Ok data, st0)
    /\ get_credentialed_session (jnlp_credentials data) = Ok session
    /\ _is_already_registered (jenkins_url data) (name data) session
         (after_jar_step (jenkins_url data) st0)
       = (Ok registered, st2).

End Vocabulary.

(** A node-list entry that is a JSON object. *)
Definition is_dict (v : pyval) : bool :=
  match v with
  | PDict _ => true
  | _ => false
  end.

(** The entry is an object whose display name equals [name]. *)
Definition has_display_name (name : option string) (v : pyval) : bool :=
  match v with
  | PDict entries => Py.eq_str (Py.dict_get entries "displayName" PNone) name
  | _ => false
  end.

(** The line the existence check logs when it finds the node. *)
Definition already_registered_line (name : option string) : Level * string :=
  (INFO, "Worker " ++ PyStr.fmt name ++ " already registered").

(** The document has an [application-desc] child of the root that itself
    has an [argument] child. *)
Definition has_secret_path (root : Element) : Prop :=
  exists desc argument,
    In desc (ET.children root)
    /\ ET.tag desc = "application-desc"
    /\ In argument (ET.children desc)
    /\ ET.tag argument = "argument".

(** [n] slashes. *)
Fixpoint slashes (n : nat) : string :=
  match n with
  | O => EmptyString
  | S n' => String "/" (slashes n')
  end.

(** A fetch from the metadata service. *)
Definition metadata_fetch (e : Event) : Prop :=
  match e with
  | EvHttp req _ => exists path, req = metadata_request path
  | EvSystem _ => False
  end.

(** What [handle_start] may have done before it builds its session:
    metadata fetches, and the download of the agent jar from the coordinator. *)
Definition before_session (jenkins_url : string) (e : Event) : Prop :=
  match e with
  | EvHttp req _ => exists path, req = metadata_request path
  | EvSystem command => command = wget_command jenkins_url
  end.

(** An event that reaches the coordinator at [jenkins_url]: a request to
    a URL under it, or the download of the agent jar from it. *)
Definition contacts_coordinator (jenkins_url : string) (e : Event) : Prop :=
  match e with
  | EvHttp req _ => String.prefix jenkins_url (url req) = true
  | EvSystem command => command = wget_command jenkins_url
  end.

(** An event that is not a POST request. *)
Definition not_a_post (e : Event) : Prop :=
  match e with
  | EvHttp req _ => method req = GET
  | EvSystem _ => True
  end.


(** ** Further vocabulary *)

(** What comes behind the create request, given how the create call
    ended.  [rest] is what registration itself still sent, [after] what the
    run sent after registration, [result] how the run ended.  Answered with
    302, the create is followed by the configuration update.  Answered with a
    status in 400..599, or not answered at all, it is the last thing sent and
    the run raises.  For any other status only the shape of [rest] is stated. *)
Definition after_create (resp : option Response) (update : Request)
           (rest after : list Event) (result : Result unit) : Prop :=
  match resp with
  | None => rest = [] /\ after = [] /\ exists e, result = Raise e
  | Some r =>
      if (status_code r =? codes.found)%Z then
        exists resp', rest = [EvHttp update resp']
      else if is_error_status (status_code r) then
        rest = [] /\ after = []
        /\ result = Raise (HTTPError (status_code r))
      else rest = [] \/ exists resp', rest = [EvHttp update resp']
  end.

(** What comes behind the delete call of a deregistration, given how the
    call ended: nothing when it returned 302 or returned no response, one
    node-list call otherwise. *)
Definition after_delete (resp : option Response) (node_list : Request)
           (tail : list Event) : Prop :=
  match resp with
  | None => tail = []
  | Some r =>
      if (status_code r =? codes.found)%Z then tail = []
      else exists resp', tail = [EvHttp node_list resp']
  end.




(** Events other than the start of the agent: requests, and downloads of
    the agent jar. *)
Definition no_launch (e : Event) : Prop :=
  match e with
  | EvHttp _ _ => True
  | EvSystem command => exists jenkins_url, command = wget_command jenkins_url
  end.

(** Events other than a download of the agent jar: requests, and starts
    of the agent. *)
Definition no_download (e : Event) : Prop :=
  match e with
  | EvHttp _ _ => True
  | EvSystem command =>
      exists jenkins_url name secret,
        command = java_jar_agent_command jenkins_url name secret
  end.

Section FlowVocabulary.

Context {P : Platform}.

(** A computation that, when it returns, has ended by running a command
    satisfying [C], everything before it satisfying [Q]; when it raises, all
    it did satisfies [Q]. *)
Definition launches (Q : Event -> Prop) (C : string -> Prop) (m : M unit)
  : Prop :=
  forall st, exists evs,
    trace (snd (m st)) = (trace st ++ evs)%list
    /\ match fst (m st) with
       | Ok _ =>
           exists before command,
             evs = (before ++ [EvSystem command])%list
             /\ C command /\ Forall Q before
       | Raise _ => Forall Q evs
       end.

(** In the run of [handle_start] from [st] the secret is fetched: the
    load returns [data], the [session] is built from its credentials, the
    existence check returns, registration returns when the node was not
    listed, and the secret fetch returns [secret], leaving the state [st4]. *)
Definition secret_fetched (st : State) (data : InstanceData)
           (session : Session) (secret : option string) (st4 : State) : Prop :=
  exists st0 registered st2 st3,
    load_instance_metadata st = (Ok data, st0)
    /\ get_credentialed_session (jnlp_credentials data) = Ok session
    /\ _is_already_registered (jenkins_url data) (name data) session
         (after_jar_step (jenkins_url data) st0)
       = (Ok registered, st2)
    /\ (if negb registered
        then _do_registration (jenkins_url data) (name data) session
               (jenkins_label data)
        else ret tt) st2
       = (Ok tt, st3)
    /\ _get_jnlp_secret (jenkins_url data) (name data) session st3
       = (Ok secret, st4).

End FlowVocabulary.

(** ** A scripted world for the scenarios

    The peers answer with the responses of a script, in order; the parsers
    know the documents the scenarios use.  The theorems below hold for every
    [Platform]; this one instantiates them. *)

Module Demo.

Record scripted : Type := {
  script : list (option Response);
  jar : bool }.

Definition bytes (s : string) : list byte := list_byte_of_string s.

Definition respond (status : Z) (body : string) : option Response :=
  Some {| status_code := status; content := bytes body |}.

Definition serve (_ : Request) (w : scripted) : option Response * scripted :=
  match script w with
  | r :: rest => (r, {| script := rest; jar := jar w |})
  | [] => (None, w)
  end.

(** [{"computer": [{"displayName": "agent-7"}]}] *)
Definition listing_agent_7 : string :=
  "{" ++ dq ++ "computer" ++ dq ++ ": [{" ++ dq ++ "displayName" ++ dq ++ ": "
  ++ dq ++ "agent-7" ++ dq ++ "}]}".

(** [{"computer": []}] *)
Definition listing_empty : string :=
  "{" ++ dq ++ "computer" ++ dq ++ ": []}".

Definition loads (bs : list byte) : option pyval :=
  let s := string_of_list_byte bs in
  if String.eqb s listing_agent_7 then
    Some (PDict [("computer", PList [PDict [("displayName", PStr "agent-7")]])])
  else if String.eqb s listing_empty then
    Some (PDict [("computer", PList [])])
  else None.

Definition jnlp_with_secret : string :=
  "<jnlp><application-desc><argument>s3cr3t</argument></application-desc></jnlp>".

Definition jnlp_without_argument : string :=
  "<jnlp><application-desc/></jnlp>".

Definition fromstring (s : string) : option Element :=
  if String.eqb s jnlp_with_secret then
    Some (Elem "jnlp" None
            [Elem "application-desc" None [Elem "argument" (Some "s3cr3t") []]])
  else if String.eqb s jnlp_without_argument then
    Some (Elem "jnlp" None [Elem "application-desc" None []])
  else None.

#[local] Instance platform : Platform := {|
  World := scripted;
  http_send := serve;
  path_exists := fun path w =>
    if String.eqb path JENKINS_AGENT_JAR_LOCAL_PATH then jar w else false;
  os_system := fun _ w => w;
  json_loads := loads;
  xml_fromstring := fromstring;
  json_dumps := fun _ => "{}";
  urlencode := fun _ => "name=agent-7" |}.

Definition boot (responses : list (option Response)) (jar_present : bool)
  : State :=
  {| world := {| script := responses; jar := jar_present |};
     trace := [];
     log := [] |}.

(** The metadata of the scenarios: name, coordinator URL, credentials, label. *)
Definition metadata (raw_url credentials : string) : list (option Response) :=
  [respond 200 "agent-7"; respond 200 raw_url; respond 200 credentials;
   respond 200 "linux"].

Definition session : Session := {| session_auth := ("u", "p") |}.

Definition ci : string := "http://ci.example.com".
Definition agent : option string := Some "agent-7".

End Demo.

(** ** A second scripted world, with richer documents *)

Module Lab.

(** [{"computer": [{"displayName": "built-in"}, {"displayName": "agent-7"}, 5]}] *)
Definition listing_mixed : string :=
  "{" ++ dq ++ "computer" ++ dq ++ ": [{" ++ dq ++ "displayName" ++ dq ++ ": "
  ++ dq ++ "built-in" ++ dq ++ "}, {" ++ dq ++ "displayName" ++ dq ++ ": "
  ++ dq ++ "agent-7" ++ dq ++ "}, 5]}".

(** [{"computer": {}}] *)
Definition listing_object : string :=
  "{" ++ dq ++ "computer" ++ dq ++ ": {}}".

Definition loads (bs : list byte) : option pyval :=
  let s := string_of_list_byte bs in
  if String.eqb s listing_mixed then
    Some (PDict [("computer",
                  PList [PDict [("displayName", PStr "built-in")];
                         PDict [("displayName", PStr "agent-7")];
                         PInt 5])])
  else if String.eqb s "null" then Some PNone
  else if String.eqb s listing_object then Some (PDict [("computer", PDict [])])
  else Demo.loads bs.

Definition jnlp_two_descriptions : string :=
  "<jnlp><information/><application-desc><argument>first</argument><argument>second</argument></application-desc><application-desc/></jnlp>".

Definition fromstring (s : string) : option Element :=
  if String.eqb s jnlp_two_descriptions then
    Some (Elem "jnlp" None
            [Elem "information" None [];
             Elem "application-desc" None
               [Elem "argument" (Some "first") [];
                Elem "argument" (Some "second") []];
             Elem "application-desc" None []])
  else Demo.fromstring s.

#[local] Instance platform : Platform := {|
  World := Demo.scripted;
  http_send := Demo.serve;
  path_exists := fun path w =>
    if String.eqb path JENKINS_AGENT_JAR_LOCAL_PATH then Demo.jar w else false;
  os_system := fun _ w => w;
  json_loads := loads;
  xml_fromstring := fromstring;
  json_dumps := fun _ => "{}";
  urlencode := fun _ => "name=agent-7" |}.

Definition boot (responses : list (option Response)) (jar_present : bool)
  : State :=
  {| world := {| Demo.script := responses; Demo.jar := jar_present |};
     trace := [];
     log := [] |}.

End Lab.

(** ** Facts about the string operations *)

Lemma lstrip_startswith (chars : string) (c : ascii) (s : string) :
  PyStr.mem c chars = true ->
  PyStr.startswith c (PyStr.lstrip chars s) = false.
Proof.
  intros Hc. induction s as [|a s IH]; simpl; [reflexivity|].
  destruct (PyStr.mem a chars) eqn:Ha; [exact IH|].
  simpl. destruct (Ascii.eqb a c) eqn:E; [|reflexivity].
  apply Ascii.eqb_eq in E. congruence.
Qed.

Lemma rstrip_startswith (chars : string) (c : ascii) (s : string) :
  PyStr.startswith c s = false ->
  PyStr.startswith c (PyStr.rstrip chars s) = false.
Proof.
  destruct s as [|a s]; simpl; [reflexivity|]. intros Ha.
  destruct (PyStr.rstrip chars s); [destruct (PyStr.mem a chars)|]; simpl; auto.
Qed.

Lemma rstrip_endswith (chars : string) (c : ascii) (s : string) :
  PyStr.mem c chars = true ->
  PyStr.endswith c (PyStr.rstrip chars s) = false.
Proof.
  intros Hc. induction s as [|a s IH]; simpl; [reflexivity|].
  destruct (PyStr.rstrip chars s) as [|b r] eqn:R.
  - destruct (PyStr.mem a chars) eqn:Ha; simpl; [reflexivity|].
    destruct (Ascii.eqb a c) eqn:E; [|reflexivity].
    apply Ascii.eqb_eq in E. congruence.
  - exact IH.
Qed.

Lemma strip_ends (chars : string) (c : ascii) (s : string) :
  PyStr.mem c chars = true ->
  PyStr.startswith c (PyStr.strip chars s) = false
  /\ PyStr.endswith c (PyStr.strip chars s) = false.
Proof.
  intros Hc. unfold PyStr.strip. split.
  - apply rstrip_startswith, lstrip_startswith, Hc.
  - apply rstrip_endswith, Hc.
Qed.

Lemma split_length (sep : ascii) (s : string) :
  List.length (PyStr.split sep s) = S (PyStr.count sep s).
Proof.
  induction s as [|a s IH]; simpl; [reflexivity|].
  destruct (Ascii.eqb a sep); simpl; [now rewrite IH|].
  destruct (PyStr.split sep s); simpl in *; [discriminate|exact IH].
Qed.

Lemma get_credentialed_session_colons (c : string) :
  (exists session, get_credentialed_session (Some c) = Ok session)
  <-> PyStr.count ":" c = 1.
Proof.
  unfold get_credentialed_session.
  pose proof (split_length ":" c) as L.
  destruct (PyStr.split ":" c) as [|u [|p [|x rest]]]; simpl in L; split;
    intros H; try lia; try (now destruct H); eauto.
Qed.

Lemma get_credentialed_session_rejects (c : string) :
  PyStr.count ":" c <> 1 ->
  get_credentialed_session (Some c) = Raise ValueError.
Proof.
  unfold get_credentialed_session.
  pose proof (split_length ":" c) as L.
  destruct (PyStr.split ":" c) as [|u [|p [|x rest]]]; simpl in L; intros H;
    try reflexivity; lia.
Qed.

Lemma rstrip_slashes (n : nat) : PyStr.rstrip "/" (slashes n) = EmptyString.
Proof. induction n as [|n IH]; simpl; [reflexivity|]. now rewrite IH. Qed.

Lemma rstrip_trailing_slashes (base : string) (n : nat) :
  PyStr.endswith "/" base = false ->
  PyStr.rstrip "/" (base ++ slashes n) = base.
Proof.
  induction base as [|a base IH]; intros Hend; simpl.
  - apply rstrip_slashes.
  - destruct base as [|b base].
    + simpl in *. rewrite rstrip_slashes.
      unfold PyStr.mem. now rewrite Hend.
    + rewrite IH by exact Hend. reflexivity.
Qed.

Lemma lstrip_leading_slashes (m : nat) (s : string) :
  PyStr.lstrip "/" (slashes m ++ s) = PyStr.lstrip "/" s.
Proof. induction m as [|m IH]; simpl; [reflexivity|exact IH]. Qed.

(** Whatever the number of slashes around it, a value that itself neither
    starts nor ends with a slash comes back bare. *)
Lemma strip_slashes (m n : nat) (base : string) :
  PyStr.startswith "/" base = false ->
  PyStr.endswith "/" base = false ->
  PyStr.strip "/" (slashes m ++ base ++ slashes n) = base.
Proof.
  intros Hstart Hend. unfold PyStr.strip.
  rewrite lstrip_leading_slashes.
  destruct base as [|a base].
  - simpl. clear. induction n as [|n IH]; simpl; [reflexivity|exact IH].
  - simpl in Hstart.
    replace (PyStr.lstrip "/" (String a base ++ slashes n))
      with (String a base ++ slashes n)
      by (simpl; now rewrite Hstart).
    now apply rstrip_trailing_slashes.
Qed.

(** ** Running the monad *)

Section Runs.

Context {P : Platform}.

Lemma bind_ok {A B} (m : M A) (k : A -> M B) (st st' : State) (a : A) :
  m st = (Ok a, st') -> bind m k st = k a st'.
Proof. intros H. unfold bind. now rewrite H. Qed.

Lemma bind_raise {A B} (m : M A) (k : A -> M B) (st st' : State) (e : Exn) :
  m st = (Raise e, st') -> bind m k st = (Raise e, st').
Proof. intros H. unfold bind. now rewrite H. Qed.

Lemma send_ok (req : Request) (st : State) (r : Response) (w : World) :
  http_send req (world st) = (Some r, w) ->
  send req st =
    (Ok r, {| world := w;
              trace := trace st ++ [EvHttp req (Some r)];
              log := log st |}).
Proof. intros H. unfold send. now rewrite H. Qed.

Lemma raise_for_status_error (r : Response) (st : State) :
  is_error_status (status_code r) = true ->
  raise_for_status r st = (Raise (HTTPError (status_code r)), st).
Proof. intros H. unfold raise_for_status. now rewrite H. Qed.

Lemma raise_for_status_quiet (r : Response) (st : State) :
  is_error_status (status_code r) = false ->
  raise_for_status r st = (Ok tt, st).
Proof. intros H. unfold raise_for_status. now rewrite H. Qed.

End Runs.

(** Step through a [bind] whose first computation is known to return. *)
Ltac step_with tac := erewrite bind_ok by tac.
Ltac step := step_with ltac:(reflexivity).

(** ** What a computation adds to the trace *)

Section Emissions.

Context {P : Platform}.

Lemma only_emits_ret {A} (Q : Event -> Prop) (a : A) : only_emits Q (ret a).
Proof. intros st. exists []. simpl. now rewrite app_nil_r. Qed.

Lemma only_emits_raise {A} (Q : Event -> Prop) (e : Exn) :
  only_emits Q (@raise P A e).
Proof. intros st. exists []. simpl. now rewrite app_nil_r. Qed.

Lemma only_emits_lift {A} (Q : Event -> Prop) (r : Result A) :
  only_emits Q (lift r).
Proof. intros st. exists []. simpl. now rewrite app_nil_r. Qed.

Lemma only_emits_emit (Q : Event -> Prop) (lvl : Level) (msg : string) :
  only_emits Q (emit lvl msg).
Proof. intros st. exists []. simpl. now rewrite app_nil_r. Qed.

Lemma only_emits_os_path_exists (Q : Event -> Prop) (path : string) :
  only_emits Q (os_path_exists path).
Proof. intros st. exists []. simpl. now rewrite app_nil_r. Qed.

Lemma only_emits_system (Q : Event -> Prop) (command : string) :
  Q (EvSystem command) -> only_emits Q (system command).
Proof. intros H st. exists [EvSystem command]. simpl. auto. Qed.

Lemma only_emits_send (Q : Event -> Prop) (req : Request) :
  (forall resp, Q (EvHttp req resp)) -> only_emits Q (send req).
Proof.
  intros H st. unfold send.
  destruct (http_send req (world st)) as [resp w].
  exists [EvHttp req resp]. destruct resp; simpl; auto.
Qed.

Lemma only_emits_bind {A B} (Q : Event -> Prop) (m : M A) (k : A -> M B) :
  only_emits Q m -> (forall a, only_emits Q (k a)) -> only_emits Q (bind m k).
Proof.
  intros Hm Hk st. unfold bind.
  destruct (Hm st) as [evs [Ht Hq]].
  destruct (m st) as [[a|e] st1]; simpl in *.
  - destruct (Hk a st1) as [evs' [Ht' Hq']].
    exists (evs ++ evs')%list. split.
    + now rewrite Ht', Ht, app_assoc.
    + apply Forall_app. now split.
  - now exists evs.
Qed.

Lemma only_emits_raise_for_status (Q : Event -> Prop) (r : Response) :
  only_emits Q (raise_for_status r).
Proof.
  unfold raise_for_status. destruct (is_error_status (status_code r));
    [apply only_emits_raise | apply only_emits_ret].
Qed.

Lemma only_emits_decode_utf8 (Q : Event -> Prop) (bs : list byte) :
  only_emits Q (decode_utf8 bs).
Proof.
  unfold decode_utf8. destruct (Utf8.decode bs);
    [apply only_emits_ret | apply only_emits_raise].
Qed.

End Emissions.

Create HintDb emits.

#[local] Hint Resolve only_emits_ret only_emits_raise only_emits_lift
  only_emits_emit only_emits_os_path_exists only_emits_raise_for_status
  only_emits_decode_utf8 : emits.

(** Decompose a computation built from binds and conditionals. *)
Ltac emits :=
  repeat first
    [ apply only_emits_bind; [|intros ?]
    | progress (unfold logger_info, logger_critical)
    | solve [auto with emits]
    | match goal with
      | |- only_emits _ (if ?b then _ else _) => destruct b
      | |- only_emits _ (match ?x with _ => _ end) => destruct x
      end ].

(** ** The existence check *)

Section ExistenceCheck.

Context {P : Platform}.

Lemma scan_computers_dicts (name : option string) (computers : list pyval)
      (st : State) :
  Forall (fun v => is_dict v = true) computers ->
  scan_computers name computers st =
    (Ok (existsb (has_display_name name) computers),
     {| world := world st;
        trace := trace st;
        log := log st
               ++ (if existsb (has_display_name name) computers
                   then [already_registered_line name] else []) |}).
Proof.
  intros Hdicts. induction Hdicts as [|v rest Hv _ IH]; simpl.
  - unfold ret. rewrite app_nil_r. now destruct st.
  - destruct v; try discriminate. simpl.
    destruct (Py.eq_str (Py.dict_get entries "displayName" PNone) name); simpl.
    + reflexivity.
    + exact IH.
Qed.

Lemma scan_computers_trace (name : option string) (computers : list pyval)
      (st : State) :
  trace (snd (scan_computers name computers st)) = trace st
  /\ world (snd (scan_computers name computers st)) = world st.
Proof.
  induction computers as [|v rest IH]; simpl; [now split|].
  destruct v; try (now split).
  destruct (Py.eq_str (Py.dict_get entries "displayName" PNone) name);
    [now split | exact IH].
Qed.

(** The check sends the node-list request and nothing else, however it
    ends. *)
Lemma is_already_registered_trace (jenkins_url : string)
      (name : option string) (session : Session) (st : State) :
  exists resp,
    trace (snd (_is_already_registered jenkins_url name session st))
    = (trace st ++ [EvHttp (node_list_request jenkins_url session) resp])%list.
Proof.
  unfold _is_already_registered. step.
  unfold bind at 1, send. simpl.
  destruct (http_send (node_list_request jenkins_url session) (world st))
    as [[r|] w]; simpl; [|now exists None].
  exists (Some r).
  unfold bind, logger_critical, emit, raise_for_status, raise, ret.
  destruct (negb (status_code r =? codes.ok)%Z); simpl;
    [destruct (is_error_status (status_code r)); simpl; [reflexivity|] |];
    (destruct (json_loads (content r)) as [node_list|]; simpl; [|reflexivity];
     destruct node_list; simpl; try reflexivity;
     destruct (Py.iter (Py.dict_get entries "computer" (PList [])));
       simpl; [|reflexivity];
     match goal with
     | |- context [scan_computers ?n ?l ?s] =>
         destruct (scan_computers_trace n l s) as [Ht _];
         destruct (scan_computers n l s) as [[b|e] s'] eqn:E; simpl in *;
         exact Ht
     end).
Qed.

(** A node-list response with status 200 whose document is an object with
    a list of objects under [computer]. *)
Lemma is_already_registered_run (jenkins_url : string) (name : option string)
      (session : Session) (st : State) (r : Response) (w : World)
      (entries : list (string * pyval)) (computers : list pyval) :
  http_send (node_list_request jenkins_url session) (world st) = (Some r, w) ->
  status_code r = codes.ok ->
  json_loads (content r) = Some (PDict entries) ->
  Py.dict_get entries "computer" (PList []) = PList computers ->
  Forall (fun v => is_dict v = true) computers ->
  _is_already_registered jenkins_url name session st =
    (Ok (existsb (has_display_name name) computers),
     {| world := w;
        trace := trace st
                 ++ [EvHttp (node_list_request jenkins_url session) (Some r)];
        log := (log st
                ++ [(INFO, "Checking if worker " ++ PyStr.fmt name
                           ++ " is already registered")])
               ++ (if existsb (has_display_name name) computers
                   then [already_registered_line name] else []) |}).
Proof.
  intros Hsend Hstatus Hjson Hcomputers Hdicts.
  unfold _is_already_registered. step.
  step_with ltac:(apply send_ok; exact Hsend).
  rewrite Hstatus. simpl. step.
  rewrite Hjson. step. step.
  rewrite Hcomputers. simpl. step.
  now rewrite (scan_computers_dicts name _ Hdicts).
Qed.

Lemma has_display_name_exists (name : string) (computers : list pyval) :
  existsb (has_display_name (Some name)) computers = true
  <-> exists entries,
        In (PDict entries) computers
        /\ Py.dict_get entries "displayName" PNone = PStr name.
Proof.
  rewrite existsb_exists. split.
  - intros [v [Hin Hv]]. destruct v; try discriminate. simpl in Hv.
    exists entries. split; [exact Hin|].
    destruct (Py.dict_get entries "displayName" PNone); try discriminate.
    simpl in Hv. apply String.eqb_eq in Hv. now subst.
  - intros [entries [Hin Hname]]. exists (PDict entries). split; [exact Hin|].
    simpl. rewrite Hname. simpl. apply String.eqb_refl.
Qed.

(** C4.  On a node-list response with status 200 the check returns, and
    its result is true exactly when some entry's display name is the queried
    name, byte for byte; on an empty entry list it is false. *)
Theorem is_already_registered_iff_listed
  (jenkins_url name : string) (session : Session) (st : State)
  (r : Response) (w : World)
  (entries : list (string * pyval)) (computers : list pyval) :
  http_send (node_list_request jenkins_url session) (world st) = (Some r, w) ->
  status_code r = codes.ok ->
  json_loads (content r) = Some (PDict entries) ->
  Py.dict_get entries "computer" (PList []) = PList computers ->
  Forall (fun v => is_dict v = true) computers ->
  exists registered st',
    _is_already_registered jenkins_url (Some name) session st
      = (Ok registered, st')
    /\ (registered = true
        <-> exists entry,
              In (PDict entry) computers
              /\ Py.dict_get entry "displayName" PNone = PStr name)
    /\ (computers = [] -> registered = false).
Proof.
  intros Hsend Hstatus Hjson Hcomputers Hdicts.
  eexists. eexists. split.
  - exact (is_already_registered_run jenkins_url (Some name) session st
             Hsend Hstatus Hjson Hcomputers Hdicts).
  - split; [apply has_display_name_exists|].
    intros ->. reflexivity.
Qed.

End ExistenceCheck.

(** ** The metadata loader *)

Section Metadata.

Context {P : Platform}.

(** What one attribute fetch does with the response it gets. *)
Lemma load_instance_metadata_item_run (path : string) (st : State)
      (r : Response) (w : World) :
  http_send (metadata_request path) (world st) = (Some r, w) ->
  let st' := {| world := w;
                trace := trace st ++ [EvHttp (metadata_request path) (Some r)];
                log := log st |} in
  load_instance_metadata_item path st =
    if (status_code r =? codes.ok)%Z then
      match Utf8.decode (content r) with
      | Some text => (Ok (Some text), st')
      | None => (Raise UnicodeDecodeError, st')
      end
    else if is_error_status (status_code r) then
      (Raise (HTTPError (status_code r)), st')
    else (Ok None, st').
Proof.
  intros Hsend st'. unfold load_instance_metadata_item.
  step_with ltac:(apply send_ok; exact Hsend). fold st'.
  destruct (status_code r =? codes.ok)%Z.
  - unfold decode_utf8. destruct (Utf8.decode (content r)); reflexivity.
  - unfold bind, raise_for_status.
    destruct (is_error_status (status_code r)); reflexivity.
Qed.

Lemma load_instance_metadata_item_ok (path text : string) (st : State)
      (w : World) :
  metadata_answers path text (world st) w ->
  exists r,
    load_instance_metadata_item path st =
      (Ok (Some text),
       {| world := w;
          trace := trace st ++ [EvHttp (metadata_request path) (Some r)];
          log := log st |}).
Proof.
  intros [r [Hsend [Hstatus Hdecode]]]. exists r.
  rewrite (load_instance_metadata_item_run path st Hsend).
  now rewrite Hstatus, Hdecode.
Qed.

(** Four good answers make the loader return, with the coordinator URL
    stripped and the other three values as they came. *)
Lemma load_instance_metadata_ok (st : State)
      (node_name raw credentials label : string) (w1 w2 w3 w4 : World) :
  metadata_answers "name" node_name (world st) w1 ->
  metadata_answers "attributes/JENKINS_URL" raw w1 w2 ->
  metadata_answers "attributes/JNLP_CREDENTIALS" credentials w2 w3 ->
  metadata_answers "attributes/JENKINS_AGENT_LABEL" label w3 w4 ->
  exists st',
    load_instance_metadata st =
      (Ok {| jenkins_url := PyStr.strip "/" raw;
             name := Some node_name;
             jnlp_credentials := Some credentials;
             jenkins_label := Some label |}, st')
    /\ world st' = w4.
Proof.
  intros H1 H2 H3 H4. unfold load_instance_metadata. step.
  match goal with |- context [bind _ _ ?s] =>
    destruct (load_instance_metadata_item_ok s H1) as [r1 E1] end.
  step_with ltac:(exact E1).
  match goal with |- context [bind _ _ ?s] =>
    destruct (load_instance_metadata_item_ok s H2) as [r2 E2] end.
  step_with ltac:(exact E2).
  match goal with |- context [bind _ _ ?s] =>
    destruct (load_instance_metadata_item_ok s H3) as [r3 E3] end.
  step_with ltac:(exact E3).
  match goal with |- context [bind _ _ ?s] =>
    destruct (load_instance_metadata_item_ok s H4) as [r4 E4] end.
  step_with ltac:(exact E4).
  eexists. split; reflexivity.
Qed.

(** C6.  With four good answers from the metadata service the loaded
    coordinator URL never ends with a slash, however many the raw value ended
    with; "http://ci.example.com/" is loaded as "http://ci.example.com". *)
Theorem loaded_url_has_no_trailing_slash (st : State)
      (node_name raw credentials label : string) (w1 w2 w3 w4 : World) :
  metadata_answers "name" node_name (world st) w1 ->
  metadata_answers "attributes/JENKINS_URL" raw w1 w2 ->
  metadata_answers "attributes/JNLP_CREDENTIALS" credentials w2 w3 ->
  metadata_answers "attributes/JENKINS_AGENT_LABEL" label w3 w4 ->
  exists data st',
    load_instance_metadata st = (Ok data, st')
    /\ PyStr.endswith "/" (jenkins_url data) = false
    /\ (forall base n,
          raw = base ++ slashes n ->
          PyStr.startswith "/" base = false ->
          PyStr.endswith "/" base = false ->
          jenkins_url data = base)
    /\ (raw = "http://ci.example.com/" ->
        jenkins_url data = "http://ci.example.com").
Proof.
  intros H1 H2 H3 H4.
  destruct (load_instance_metadata_ok st H1 H2 H3 H4) as [st' [E _]].
  eexists. exists st'. split; [exact E|]. simpl. split; [|split].
  - now apply strip_ends.
  - intros base n -> Hstart Hend.
    now apply (strip_slashes 0 n base).
  - intros ->. reflexivity.
Qed.

(** C9.  The loader strips slashes at both ends: the loaded URL neither
    begins nor ends with a slash, and "//ci.example.com/" is loaded as
    "ci.example.com". *)
Theorem loaded_url_is_stripped_at_both_ends (st : State)
      (node_name raw credentials label : string) (w1 w2 w3 w4 : World) :
  metadata_answers "name" node_name (world st) w1 ->
  metadata_answers "attributes/JENKINS_URL" raw w1 w2 ->
  metadata_answers "attributes/JNLP_CREDENTIALS" credentials w2 w3 ->
  metadata_answers "attributes/JENKINS_AGENT_LABEL" label w3 w4 ->
  exists data st',
    load_instance_metadata st = (Ok data, st')
    /\ PyStr.startswith "/" (jenkins_url data) = false
    /\ PyStr.endswith "/" (jenkins_url data) = false
    /\ (forall base m n,
          raw = slashes m ++ base ++ slashes n ->
          PyStr.startswith "/" base = false ->
          PyStr.endswith "/" base = false ->
          jenkins_url data = base)
    /\ (raw = "//ci.example.com/" -> jenkins_url data = "ci.example.com").
Proof.
  intros H1 H2 H3 H4.
  destruct (load_instance_metadata_ok st H1 H2 H3 H4) as [st' [E _]].
  eexists. exists st'. split; [exact E|]. simpl.
  split; [|split; [|split]]; try (now apply strip_ends).
  - intros base m n -> Hstart Hend. now apply strip_slashes.
  - intros ->. reflexivity.
Qed.

End Metadata.

(** C2.  The metadata service answers the fetch of the node name with
    204: the fetch returns [None] instead of raising, and the load goes on to
    return a structure whose name is [None]. *)
Theorem metadata_fetch_returns_none_on_204 :
  fst (load_instance_metadata_item "name"
         (Demo.boot [Demo.respond 204 ""] true))
  = Ok None
  /\ fst (load_instance_metadata
            (Demo.boot [Demo.respond 204 "";
                        Demo.respond 200 "http://ci.example.com/";
                        Demo.respond 200 "u:p";
                        Demo.respond 200 "linux"] true))
     = Ok {| jenkins_url := "http://ci.example.com";
             name := None;
             jnlp_credentials := Some "u:p";
             jenkins_label := Some "linux" |}.
Proof. vm_compute. split; reflexivity. Qed.

(** ** Deregistration *)

Section Deregistration.

Context {P : Platform}.

(** C7.  When the delete request is answered with 302, the call logs the
    success and returns; the delete request is the only request it has
    added to the trace, so no existence check follows. *)
Theorem deregister_found_returns_at_once
  (jenkins_url : string) (name credentials : option string)
  (session : Session) (st : State) (delete_r : Response) (w : World) :
  get_credentialed_session credentials = Ok session ->
  http_send (delete_request jenkins_url name session) (world st)
    = (Some delete_r, w) ->
  status_code delete_r = codes.found ->
  _deregister_with_jenkins_master jenkins_url name credentials st =
    (Ok tt,
     {| world := w;
        trace := trace st
                 ++ [EvHttp (delete_request jenkins_url name session)
                            (Some delete_r)];
        log := log st
               ++ [(INFO, "De-registering worker " ++ PyStr.fmt name
                          ++ " from Jenkins " ++ jenkins_url);
                   (INFO, "Worker " ++ PyStr.fmt name
                          ++ " successfully de-registered from Jenkins "
                          ++ jenkins_url)] |}).
Proof.
  intros Hsession Hsend Hstatus.
  unfold _deregister_with_jenkins_master.
  step.
  step_with ltac:(unfold lift; rewrite Hsession; reflexivity).
  step_with ltac:(apply send_ok; exact Hsend).
  rewrite Hstatus. simpl.
  unfold logger_info, emit. simpl.
  now rewrite <- app_assoc.
Qed.

(** A delete answered with any other status: one existence check follows.
    A node reported absent ends the call normally; a node reported present
    hands the delete response to [raise_for_status]. *)
Lemma deregister_recheck
  (jenkins_url : string) (name credentials : option string)
  (session : Session) (st st2 : State) (delete_r : Response) (w : World)
  (registered : bool) :
  get_credentialed_session credentials = Ok session ->
  http_send (delete_request jenkins_url name session) (world st)
    = (Some delete_r, w) ->
  status_code delete_r <> codes.found ->
  _is_already_registered jenkins_url name session
    {| world := w;
       trace := trace st
                ++ [EvHttp (delete_request jenkins_url name session)
                           (Some delete_r)];
       log := log st
              ++ [(INFO, "De-registering worker " ++ PyStr.fmt name
                         ++ " from Jenkins " ++ jenkins_url)] |}
    = (Ok registered, st2) ->
  _deregister_with_jenkins_master jenkins_url name credentials st =
    (if registered then
       raise_for_status delete_r
         {| world := world st2;
            trace := trace st2;
            log := log st2
                   ++ [(CRITICAL, "Error de-registering jenkins worker at URL: "
                                  ++ delete_url jenkins_url name)] |}
     else
       (Ok tt,
        {| world := world st2;
           trace := trace st2;
           log := log st2
                  ++ [(INFO, "Worker " ++ PyStr.fmt name
                             ++ " already de-registered")] |}))
  /\ exists resp,
       trace st2
       = (trace st
          ++ [EvHttp (delete_request jenkins_url name session) (Some delete_r);
              EvHttp (node_list_request jenkins_url session) resp])%list.
Proof.
  intros Hsession Hsend Hstatus Hcheck. split.
  - unfold _deregister_with_jenkins_master.
    step.
    step_with ltac:(unfold lift; rewrite Hsession; reflexivity).
    step_with ltac:(apply send_ok; exact Hsend).
    destruct (status_code delete_r =? codes.found)%Z eqn:E;
      [apply Z.eqb_eq in E; contradiction|].
    simpl. step_with ltac:(exact Hcheck).
    destruct registered; simpl; [step|]; reflexivity.
  - match type of Hcheck with
    | _is_already_registered _ _ _ ?s = _ =>
        destruct (is_already_registered_trace jenkins_url name session s)
          as [resp Ht]
    end.
    rewrite Hcheck in Ht. simpl in Ht. exists resp.
    rewrite Ht. now rewrite <- app_assoc.
Qed.

End Deregistration.

(** C1.  The delete request is answered with 301 and the node list still
    shows the node: the call logs the critical line and returns normally,
    since [raise_for_status] raises nothing for a status outside 400..599. *)
Theorem deregister_quiet_on_delete_301_with_node_present :
  let run :=
    _deregister_with_jenkins_master "http://ci.example.com" (Some "agent-7")
      (Some "u:p")
      (Demo.boot [Demo.respond 301 ""; Demo.respond 200 Demo.listing_agent_7]
                 true) in
  fst run = Ok tt
  /\ trace (snd run)
     = [EvHttp (delete_request "http://ci.example.com" (Some "agent-7")
                  Demo.session)
          (Demo.respond 301 "");
        EvHttp (node_list_request "http://ci.example.com" Demo.session)
          (Demo.respond 200 Demo.listing_agent_7)]
  /\ log (snd run)
     = [(INFO, "De-registering worker agent-7 from Jenkins http://ci.example.com");
        (INFO, "Checking if worker agent-7 is already registered");
        (INFO, "Worker agent-7 already registered");
        (CRITICAL, "Error de-registering jenkins worker at URL: http://ci.example.com/computer/agent-7/doDelete")].
Proof. vm_compute. repeat split. Qed.

(** ** Registration *)

Section Registration.

Context {P : Platform}.

(** The create request is always sent; what follows depends on its
    answer.  A 302 leads to the configuration update.  So does every other
    status outside 400..599, after the critical line; a status within
    400..599 raises before the update. *)
Lemma do_registration_run (jenkins_url : string) (name : option string)
      (session : Session) (jenkins_label : option string) (st : State)
      (r : Response) (w : World) :
  http_send (create_request jenkins_url name jenkins_label session) (world st)
    = (Some r, w) ->
  let create := EvHttp (create_request jenkins_url name jenkins_label session)
                       (Some r) in
  let update := update_request jenkins_url name jenkins_label session in
  let run := _do_registration jenkins_url name session jenkins_label st in
  if (negb (status_code r =? codes.found)%Z && is_error_status (status_code r))%bool
  then fst run = Raise (HTTPError (status_code r))
       /\ trace (snd run) = (trace st ++ [create])%list
  else exists resp,
         trace (snd run) = (trace st ++ [create; EvHttp update resp])%list.
Proof.
  intros Hsend create update run. subst run.
  unfold _do_registration.
  set (configure := bind (logger_info ("Updating " ++ _)) _).
  assert (Hupdate : forall st1 : State,
    exists resp,
      trace (snd (configure st1)) = (trace st1 ++ [EvHttp update resp])%list).
  { intros st1. subst configure. step. unfold bind, send.
    cbn [world trace log].
    destruct (http_send (update_request jenkins_url name jenkins_label session)
                (world st1)) as [[resp|] w1].
    - exists (Some resp). unfold raise_for_status, raise, ret.
      destruct (negb (status_code resp =? codes.ok)%Z);
        [destruct (is_error_status (status_code resp))|]; reflexivity.
    - now exists None. }
  step.
  step_with ltac:(apply send_ok; exact Hsend). fold create.
  cbn [world trace log].
  destruct (status_code r =? codes.found)%Z; cbn [negb andb].
  - step.
    match goal with |- context [configure ?s] =>
      destruct (Hupdate s) as [resp Hresp] end.
    exists resp. rewrite Hresp. cbn [trace]. now rewrite <- app_assoc.
  - unfold raise_for_status.
    destruct (is_error_status (status_code r)).
    + unfold bind, logger_critical, emit, raise. cbn. now split.
    + step.
      match goal with |- context [configure ?s] =>
        destruct (Hupdate s) as [resp Hresp] end.
      exists resp. rewrite Hresp. cbn [trace]. now rewrite <- app_assoc.
Qed.

(** Whatever happens, registration sends the create request first and
    after it, at most, the configuration update. *)
Lemma do_registration_trace (jenkins_url : string)
      (name : option string) (session : Session)
      (jenkins_label : option string) (st : State) :
  exists resp rest,
    trace (snd (_do_registration jenkins_url name session jenkins_label st))
    = (trace st
       ++ EvHttp (create_request jenkins_url name jenkins_label session) resp
          :: rest)%list
    /\ (rest = []
        \/ exists resp',
             rest = [EvHttp (update_request jenkins_url name jenkins_label
                               session) resp']).
Proof.
  destruct (http_send (create_request jenkins_url name jenkins_label session)
              (world st)) as [[r|] w] eqn:Hsend.
  - exists (Some r).
    pose proof (do_registration_run jenkins_url name session jenkins_label st
                  Hsend) as Hrun.
    cbv zeta in Hrun.
    destruct (negb (status_code r =? codes.found)%Z
              && is_error_status (status_code r))%bool.
    + exists []. split; [apply Hrun|now left].
    + destruct Hrun as [resp' Hrun]. eexists. split; [exact Hrun|].
      right. now exists resp'.
  - exists None, []. split; [|now left].
    unfold _do_registration. step. unfold bind at 1, send.
    cbn [world trace log]. now rewrite Hsend.
Qed.

(** How registration ends, by the answer to the create request. *)
Lemma do_registration_outcome (jenkins_url : string)
      (name : option string) (session : Session)
      (jenkins_label : option string) (st : State) :
  exists resp rest,
    trace (snd (_do_registration jenkins_url name session jenkins_label st))
    = (trace st
       ++ EvHttp (create_request jenkins_url name jenkins_label session) resp
          :: rest)%list
    /\ after_create resp
         (update_request jenkins_url name jenkins_label session) rest []
         (fst (_do_registration jenkins_url name session jenkins_label st)).
Proof.
  destruct (http_send (create_request jenkins_url name jenkins_label session)
              (world st)) as [[r|] w] eqn:Hsend.
  - exists (Some r).
    pose proof (do_registration_run jenkins_url name session jenkins_label st
                  Hsend) as Hrun.
    cbv zeta in Hrun. unfold after_create.
    destruct (status_code r =? codes.found)%Z; cbn [negb andb] in Hrun.
    + destruct Hrun as [resp' Hrun]. eexists. split; [exact Hrun|].
      now exists resp'.
    + destruct (is_error_status (status_code r)).
      * destruct Hrun as [Hraise Hrun]. exists []. now repeat split.
      * destruct Hrun as [resp' Hrun]. eexists. split; [exact Hrun|].
        right. now exists resp'.
  - exists None, [].
    unfold _do_registration. step.
    erewrite bind_raise by (unfold send; cbn [world]; rewrite Hsend; reflexivity).
    cbn [fst snd trace after_create].
    split; [reflexivity|]. repeat split. now exists ConnectionError.
Qed.

Lemma after_create_returned (resp : option Response) (update : Request)
      (rest after : list Event) (u : unit) (result : Result unit) :
  after_create resp update rest [] (Ok u) ->
  after_create resp update rest after result.
Proof.
  unfold after_create. destruct resp as [r|].
  - destruct (status_code r =? codes.found)%Z; [auto|].
    destruct (is_error_status (status_code r)); [|auto].
    intros [_ [_ H]]. discriminate H.
  - intros [_ [_ [e H]]]. discriminate H.
Qed.

End Registration.

(** C3.  The create request is answered with 301: registration logs the
    critical line and still goes on to send the configuration update. *)
Theorem registration_continues_after_create_301 :
  let run :=
    _do_registration "http://ci.example.com" (Some "agent-7") Demo.session
      (Some "linux")
      (Demo.boot [Demo.respond 301 ""; Demo.respond 200 ""] true) in
  fst run = Ok tt
  /\ trace (snd run)
     = [EvHttp (create_request (P := Demo.platform) "http://ci.example.com" (Some "agent-7")
                  (Some "linux") Demo.session)
          (Demo.respond 301 "");
        EvHttp (update_request "http://ci.example.com" (Some "agent-7")
                  (Some "linux") Demo.session)
          (Demo.respond 200 "")]
  /\ log (snd run)
     = [(INFO, "Registering worker agent-7 with Jenkins http://ci.example.com");
        (CRITICAL, "Error registering jenkins worker at URL: http://ci.example.com/computer/doCreateItem?name=agent-7");
        (INFO, "Updating http://ci.example.com/computer/agent-7/config.xml")].
Proof. vm_compute. repeat split. Qed.

(** ** The connection secret *)

Section Secret.

Context {P : Platform}.

Lemma find_tagged (e : Element) (t : string) (c : Element) :
  ET.find e t = Some c -> In c (ET.children e) /\ ET.tag c = t.
Proof.
  unfold ET.find. intros H. apply find_some in H.
  destruct H as [Hin Htag]. split; [exact Hin|].
  now apply String.eqb_eq.
Qed.

Lemma extract_secret_missing_path (root : Element) (st : State) :
  ~ has_secret_path root ->
  extract_secret root st = (Raise AttributeError, st).
Proof.
  intros Hmissing. unfold extract_secret.
  destruct (ET.find root "application-desc") as [desc|] eqn:Hdesc;
    [|reflexivity].
  destruct (ET.find desc "argument") as [argument|] eqn:Hargument;
    [|reflexivity].
  exfalso. apply Hmissing.
  apply find_tagged in Hdesc. apply find_tagged in Hargument.
  exists desc, argument. tauto.
Qed.

(** C8.  A secret response with status 200 whose document has no
    [application-desc] child holding an [argument] child makes the extraction
    raise [AttributeError]; no secret, null or empty, is returned. *)
Theorem secret_extraction_raises_without_path
  (jenkins_url : string) (name : option string) (session : Session)
  (st : State) (r : Response) (w : World) (xml_content : string)
  (root : Element) :
  http_send (secret_request jenkins_url name session) (world st) = (Some r, w) ->
  status_code r = codes.ok ->
  Utf8.decode (content r) = Some xml_content ->
  xml_fromstring xml_content = Some root ->
  ~ has_secret_path root ->
  _get_jnlp_secret jenkins_url name session st =
    (Raise AttributeError,
     {| world := w;
        trace := trace st
                 ++ [EvHttp (secret_request jenkins_url name session) (Some r)];
        log := log st
               ++ [(INFO, "Retrieving jnlp secret for worker "
                          ++ PyStr.fmt name)] |}).
Proof.
  intros Hsend Hstatus Hdecode Hparse Hmissing.
  unfold _get_jnlp_secret. step.
  step_with ltac:(apply send_ok; exact Hsend).
  rewrite Hstatus. cbn [negb Z.eqb codes.ok Pos.eqb]. step.
  unfold decode_utf8. rewrite Hdecode. step.
  rewrite Hparse. step.
  now apply extract_secret_missing_path.
Qed.

Lemma get_jnlp_secret_emits (jenkins_url : string) (name : option string)
      (session : Session) :
  only_emits not_a_post (_get_jnlp_secret jenkins_url name session).
Proof.
  unfold _get_jnlp_secret, extract_secret. emits.
  apply only_emits_send. reflexivity.
Qed.

End Secret.

(** ** The start flow *)

Section Start.

Context {P : Platform}.

Lemma load_instance_metadata_item_emits (path : string) :
  only_emits metadata_fetch (load_instance_metadata_item path).
Proof.
  unfold load_instance_metadata_item. emits.
  apply only_emits_send. intros resp. now exists path.
Qed.

Lemma load_instance_metadata_emits :
  only_emits metadata_fetch load_instance_metadata.
Proof.
  unfold load_instance_metadata.
  repeat (apply only_emits_bind;
          [first [apply load_instance_metadata_item_emits
                 | unfold logger_info; auto with emits] | intros ?]).
  emits.
Qed.

Lemma metadata_fetch_not_a_post (e : Event) : metadata_fetch e -> not_a_post e.
Proof. destruct e; simpl; [|tauto]. now intros [path ->]. Qed.

Lemma metadata_fetch_before_session (jenkins_url : string) (e : Event) :
  metadata_fetch e -> before_session jenkins_url e.
Proof. destruct e; simpl; tauto. Qed.

Lemma before_session_not_a_post (jenkins_url : string) (e : Event) :
  before_session jenkins_url e -> not_a_post e.
Proof. destruct e; simpl; [|tauto]. now intros [path ->]. Qed.

Lemma after_jar_step_trace (jenkins_url : string) (st : State) :
  exists evs,
    trace (after_jar_step jenkins_url st) = (trace st ++ evs)%list
    /\ Forall (before_session jenkins_url) evs.
Proof.
  unfold after_jar_step.
  destruct (path_exists JENKINS_AGENT_JAR_LOCAL_PATH (world st)).
  - exists []. now rewrite app_nil_r.
  - exists [EvSystem (wget_command jenkins_url)]. split; [reflexivity|].
    constructor; [reflexivity|constructor].
Qed.

(** From the metadata to the session: the run is in [after_jar_step] when
    it parses the credentials. *)
Lemma handle_start_prologue (st st0 : State) (data : InstanceData)
      {A} (k : InstanceData -> M A) :
  load_instance_metadata st = (Ok data, st0) ->
  bind load_instance_metadata
    (fun data =>
       bind (os_path_exists JENKINS_AGENT_JAR_LOCAL_PATH)
         (fun jar_present =>
            bind (if negb jar_present then
                    bind (logger_info ("Fetching " ++ jenkins_url data ++ "/"
                                       ++ JENKINS_AGENT_JAR_PATH))
                      (fun _ => system (wget_command (jenkins_url data)))
                  else ret tt)
              (fun _ => k data)))
    st
  = k data (after_jar_step (jenkins_url data) st0).
Proof.
  intros Hload.
  step_with ltac:(exact Hload). step. unfold after_jar_step.
  destruct (path_exists JENKINS_AGENT_JAR_LOCAL_PATH (world st0)).
  - step. now destruct st0.
  - step. reflexivity.
Qed.

Lemma handle_start_prologue_trace (st st0 : State) (data : InstanceData) :
  load_instance_metadata st = (Ok data, st0) ->
  exists evs,
    trace (after_jar_step (jenkins_url data) st0) = (trace st ++ evs)%list
    /\ Forall (before_session (jenkins_url data)) evs.
Proof.
  intros Hload.
  destruct (load_instance_metadata_emits st) as [evs [Ht Hq]].
  rewrite Hload in Ht. simpl in Ht.
  destruct (after_jar_step_trace (jenkins_url data) st0) as [evs' [Ht' Hq']].
  exists (evs ++ evs')%list. split.
  - now rewrite Ht', Ht, app_assoc.
  - apply Forall_app. split; [|exact Hq'].
    eapply Forall_impl; [|exact Hq].
    apply metadata_fetch_before_session.
Qed.

Lemma only_emits_run {A} (Q : Event -> Prop) (m : M A) (st st' : State)
      (res : Result A) :
  only_emits Q m -> m st = (res, st') ->
  exists evs, trace st' = (trace st ++ evs)%list /\ Forall Q evs.
Proof.
  intros Hm Hrun. destruct (Hm st) as [evs H]. rewrite Hrun in H.
  now exists evs.
Qed.

Lemma not_a_post_excludes (evs : list Event) (req : Request)
      (resp : option Response) :
  Forall not_a_post evs -> In (EvHttp req resp) evs -> method req = POST -> False.
Proof.
  intros Hq Hin Hpost. rewrite Forall_forall in Hq.
  apply Hq in Hin. simpl in Hin. congruence.
Qed.

(** The part of [handle_start] after registration: the secret and the
    agent; no POST is sent there. *)
Lemma launch_emits (jenkins_url : string) (name : option string)
      (session : Session) :
  only_emits not_a_post
    (bind (_get_jnlp_secret jenkins_url name session)
       (fun jnlp_secret =>
          bind (logger_info "Starting agent and connecting over jnlp")
            (fun _ =>
               system (java_jar_agent_command jenkins_url name jnlp_secret)))).
Proof.
  apply only_emits_bind; [apply get_jnlp_secret_emits|intros secret].
  emits. now apply only_emits_system.
Qed.

(** C5.  In every run of the start flow the create request is sent
    exactly when the existence check returned false.  When it returned false,
    the run sends the create request once and no POST besides it and the
    configuration update: a create answered with 302 is followed at once by
    the update, a create answered with a status in 400..599, or not answered,
    is the last thing the run sends and the run raises.  When the check
    returned true the run sends no POST at all; and any POST a run sends is
    the create request or the configuration update of a run whose check
    returned false. *)
Theorem handle_start_creates_iff_unregistered (st : State) :
  exists evs,
    trace (snd (handle_start st)) = (trace st ++ evs)%list
    /\ (forall data session,
          check_returns st data session false ->
          let create :=
            create_request (jenkins_url data) (name data) (jenkins_label data)
              session in
          let update :=
            update_request (jenkins_url data) (name data) (jenkins_label data)
              session in
          exists before resp rest after,
            evs = (before ++ EvHttp create resp :: rest ++ after)%list
            /\ Forall not_a_post before
            /\ Forall not_a_post after
            /\ after_create resp update rest after (fst (handle_start st)))
    /\ (forall data session,
          check_returns st data session true -> Forall not_a_post evs)
    /\ (forall req resp,
          In (EvHttp req resp) evs -> method req = POST ->
          exists data session,
            check_returns st data session false
            /\ (req = create_request (jenkins_url data) (name data)
                        (jenkins_label data) session
                \/ req = update_request (jenkins_url data) (name data)
                           (jenkins_label data) session)).
Proof.
  (* A run with no POST, in which the check did not return false. *)
  assert (Hquiet : forall evs,
    trace (snd (handle_start st)) = (trace st ++ evs)%list ->
    Forall not_a_post evs ->
    (forall data session, ~ check_returns st data session false) ->
    exists evs0,
      trace (snd (handle_start st)) = (trace st ++ evs0)%list
      /\ (forall data session,
            check_returns st data session false ->
            let create :=
              create_request (jenkins_url data) (name data) (jenkins_label data)
                session in
            let update :=
              update_request (jenkins_url data) (name data) (jenkins_label data)
                session in
            exists before resp rest after,
              evs0 = (before ++ EvHttp create resp :: rest ++ after)%list
              /\ Forall not_a_post before
              /\ Forall not_a_post after
              /\ after_create resp update rest after (fst (handle_start st)))
      /\ (forall data session,
            check_returns st data session true -> Forall not_a_post evs0)
      /\ (forall req resp,
            In (EvHttp req resp) evs0 -> method req = POST ->
            exists data session,
              check_returns st data session false
              /\ (req = create_request (jenkins_url data) (name data)
                          (jenkins_label data) session
                  \/ req = update_request (jenkins_url data) (name data)
                             (jenkins_label data) session))).
  { intros evs Ht Hq Hnever. exists evs. split; [exact Ht|].
    split; [|split].
    - intros data session Hcheck. now apply Hnever in Hcheck.
    - intros _ _ _. exact Hq.
    - intros req resp Hin Hpost.
      exfalso. eapply not_a_post_excludes; [exact Hq | exact Hin | exact Hpost]. }
  destruct (load_instance_metadata st) as [[data|e] st0] eqn:Hload.
  2:{ (* the metadata load fails *)
    destruct (@only_emits_run _ _ _ _ _ _ load_instance_metadata_emits Hload)
      as [evs [Ht Hq]].
    apply (Hquiet evs).
    - unfold handle_start. erewrite bind_raise by exact Hload. exact Ht.
    - eapply Forall_impl; [|exact Hq]. apply metadata_fetch_not_a_post.
    - intros d s [st0' [st2 [Hl _]]]. congruence. }
  destruct (handle_start_prologue_trace st Hload) as [pre [Hpre Qpre]].
  assert (Qpre' : Forall not_a_post pre).
  { eapply Forall_impl; [|exact Qpre]. apply before_session_not_a_post. }
  destruct (get_credentialed_session (jnlp_credentials data))
    as [session|e] eqn:Hsession.
  2:{ (* no session *)
    apply (Hquiet pre); [|exact Qpre'|].
    - unfold handle_start. cbv zeta.
      erewrite handle_start_prologue by exact Hload.
      erewrite bind_raise by (unfold lift; rewrite Hsession; reflexivity).
      exact Hpre.
    - intros d s [st0' [st2 [Hl [Hs _]]]].
      rewrite Hload in Hl. injection Hl as <- <-. congruence. }
  destruct (_is_already_registered (jenkins_url data) (name data) session
              (after_jar_step (jenkins_url data) st0))
    as [[registered|e] st2] eqn:Hcheck.
  2:{ (* the check raises *)
    destruct (is_already_registered_trace (jenkins_url data) (name data)
                session (after_jar_step (jenkins_url data) st0))
      as [lresp Hlist].
    rewrite Hcheck in Hlist. cbn [snd] in Hlist.
    apply (Hquiet (pre ++ [EvHttp (node_list_request (jenkins_url data) session)
                             lresp])%list).
    - unfold handle_start. cbv zeta.
      erewrite handle_start_prologue by exact Hload.
      step_with ltac:(unfold lift; rewrite Hsession; reflexivity).
      erewrite bind_raise by exact Hcheck.
      cbn [snd]. rewrite Hlist, Hpre. now rewrite app_assoc.
    - apply Forall_app. split; [exact Qpre'|].
      constructor; [reflexivity|constructor].
    - intros d s [st0' [st2' [Hl [Hs Hc]]]].
      rewrite Hload in Hl. injection Hl as <- <-.
      rewrite Hsession in Hs. injection Hs as <-. congruence. }
  (* the check returns *)
  assert (Hunique : forall d s b,
            check_returns st d s b -> d = data /\ s = session /\ b = registered).
  { intros d s b [st0' [st2' [Hl [Hs Hc]]]].
    rewrite Hload in Hl. injection Hl as <- <-.
    rewrite Hsession in Hs. injection Hs as <-.
    rewrite Hcheck in Hc. injection Hc as <- _. auto. }
  destruct (is_already_registered_trace (jenkins_url data) (name data) session
              (after_jar_step (jenkins_url data) st0)) as [lresp Hlist].
  rewrite Hcheck in Hlist. cbn [snd] in Hlist.
  set (listing := EvHttp (node_list_request (jenkins_url data) session) lresp)
    in *.
  assert (Qlist : Forall not_a_post (pre ++ [listing])).
  { apply Forall_app. split; [exact Qpre'|].
    constructor; [reflexivity|constructor]. }
  pose proof (launch_emits (jenkins_url data) (name data) session) as Hlaunch.
  unfold handle_start. cbv zeta.
  erewrite handle_start_prologue by exact Hload.
  step_with ltac:(unfold lift; rewrite Hsession; reflexivity).
  step_with ltac:(exact Hcheck).
  destruct registered; cbn [negb].
  - (* already registered *)
    step. destruct (Hlaunch st2) as [post [Hpost Qpost]].
    assert (Qall : Forall not_a_post ((pre ++ [listing]) ++ post))
      by (apply Forall_app; now split).
    exists ((pre ++ [listing]) ++ post)%list. split; [|split; [|split]].
    + rewrite Hpost, Hlist, Hpre. now rewrite !app_assoc.
    + intros d s Hc. apply Hunique in Hc. destruct Hc as [_ [_ Hc]].
      discriminate.
    + intros _ _ _. exact Qall.
    + intros req resp Hin Hpost'.
      exfalso. eapply not_a_post_excludes; [exact Qall | exact Hin | exact Hpost'].
  - (* not registered *)
    destruct (do_registration_outcome (jenkins_url data) (name data) session
                (jenkins_label data) st2) as [cresp [rest [Hcreate Hout]]].
    assert (Hrest : rest = []
                    \/ exists resp',
                         rest = [EvHttp (update_request (jenkins_url data)
                                           (name data) (jenkins_label data)
                                           session) resp']).
    { unfold after_create in Hout. destruct cresp as [r|]; [|left; apply Hout].
      destruct (status_code r =? codes.found)%Z; [now right|].
      destruct (is_error_status (status_code r)); [left; apply Hout|exact Hout]. }
    destruct (_do_registration (jenkins_url data) (name data) session
                (jenkins_label data) st2) as [[u|e] st3] eqn:Hreg;
      cbn [fst snd] in Hcreate, Hout.
    + (* registration returned *)
      step_with ltac:(exact Hreg).
      destruct (Hlaunch st3) as [post [Hpost Qpost]].
      exists ((pre ++ [listing])
              ++ EvHttp (create_request (jenkins_url data) (name data)
                           (jenkins_label data) session) cresp
                 :: rest ++ post)%list.
      split; [|split; [|split]].
      * rewrite Hpost, Hcreate, Hlist, Hpre. now rewrite <- !app_assoc.
      * intros d s Hc. apply Hunique in Hc. destruct Hc as [-> [-> _]].
        cbv zeta. exists (pre ++ [listing])%list, cresp, rest, post.
        split; [reflexivity|]. split; [exact Qlist|]. split; [exact Qpost|].
        eapply after_create_returned. exact Hout.
      * intros d s Hc. apply Hunique in Hc. destruct Hc as [_ [_ Hc]].
        discriminate.
      * intros req resp Hin Hpost'.
        exists data, session. split.
        -- exists st0, st2. auto.
        -- apply in_app_or in Hin. destruct Hin as [Hin|Hin];
             [exfalso; eapply not_a_post_excludes;
              [exact Qlist | exact Hin | exact Hpost']|].
           destruct Hin as [Hin|Hin]; [left; congruence|].
           apply in_app_or in Hin. destruct Hin as [Hin|Hin];
             [|exfalso; eapply not_a_post_excludes;
               [exact Qpost | exact Hin | exact Hpost']].
           destruct Hrest as [->|[resp' ->]]; [destruct Hin|].
           destruct Hin as [Hin|[]]. right. congruence.
    + (* registration raised *)
      erewrite bind_raise by exact Hreg.
      exists ((pre ++ [listing])
              ++ EvHttp (create_request (jenkins_url data) (name data)
                           (jenkins_label data) session) cresp
                 :: rest ++ [])%list.
      split; [|split; [|split]].
      * cbn [snd]. rewrite Hcreate, Hlist, Hpre, app_nil_r.
        now rewrite <- !app_assoc.
      * intros d s Hc. apply Hunique in Hc. destruct Hc as [-> [-> _]].
        cbv zeta. exists (pre ++ [listing])%list, cresp, rest, [].
        split; [reflexivity|]. split; [exact Qlist|]. split; [constructor|].
        exact Hout.
      * intros d s Hc. apply Hunique in Hc. destruct Hc as [_ [_ Hc]].
        discriminate.
      * intros req resp Hin Hpost'.
        exists data, session. split.
        -- exists st0, st2. auto.
        -- rewrite app_nil_r in Hin.
           apply in_app_or in Hin. destruct Hin as [Hin|Hin];
             [exfalso; eapply not_a_post_excludes;
              [exact Qlist | exact Hin | exact Hpost']|].
           destruct Hin as [Hin|Hin]; [left; congruence|].
           destruct Hrest as [->|[resp' ->]]; [destruct Hin|].
           destruct Hin as [Hin|[]]. right. congruence.
Qed.

End Start.

(** ** Credentials *)

Section Credentials.

Context {P : Platform}.

(** C10.  A session is built exactly from the credential strings with one
    colon.  Any other string raises [ValueError] before a request is sent with
    a session: deregistration stops with nothing sent at all, and the start
    flow stops having sent only the metadata fetches and, when the agent jar
    was missing, having run its download from the coordinator. *)
Theorem bad_credentials_stop_before_any_session_request (c : string) :
  ((exists session, get_credentialed_session (Some c) = Ok session)
   <-> PyStr.count ":" c = 1)
  /\ (PyStr.count ":" c <> 1 ->
      get_credentialed_session (Some c) = Raise ValueError
      /\ (forall (jenkins_url : string) (name : option string) (st : State),
            _deregister_with_jenkins_master jenkins_url name (Some c) st =
              (Raise ValueError,
               {| world := world st;
                  trace := trace st;
                  log := log st
                         ++ [(INFO, "De-registering worker " ++ PyStr.fmt name
                                    ++ " from Jenkins " ++ jenkins_url)] |}))
      /\ (forall (st st0 : State) (data : InstanceData),
            load_instance_metadata st = (Ok data, st0) ->
            jnlp_credentials data = Some c ->
            handle_start st
              = (Raise ValueError, after_jar_step (jenkins_url data) st0)
            /\ exists evs,
                 trace (after_jar_step (jenkins_url data) st0)
                 = (trace st ++ evs)%list
                 /\ Forall (before_session (jenkins_url data)) evs)).
Proof.
  split; [apply get_credentialed_session_colons|].
  intros Hcolons.
  pose proof (get_credentialed_session_rejects c Hcolons) as Hraise.
  split; [exact Hraise|]. split.
  - intros jenkins_url name st.
    unfold _deregister_with_jenkins_master. step.
    erewrite bind_raise by (unfold lift; rewrite Hraise; reflexivity).
    reflexivity.
  - intros st st0 data Hload Hcredentials. split.
    + unfold handle_start. cbv zeta.
      erewrite handle_start_prologue by exact Hload.
      erewrite bind_raise
        by (unfold lift; rewrite Hcredentials, Hraise; reflexivity).
      reflexivity.
    + exact (handle_start_prologue_trace st Hload).
Qed.

End Credentials.

(** C10, as first stated, fails in the start flow: with the agent jar
    missing and credentials without a colon, the download of the jar from the
    coordinator has run by the time the error is raised. *)
Lemma jar_download_precedes_credential_error :
  let run :=
    handle_start
      (Demo.boot (Demo.metadata "http://ci.example.com/" "nocolon") false) in
  PyStr.count ":" "nocolon" <> 1
  /\ fst run = Raise ValueError
  /\ exists e,
       In e (trace (snd run))
       /\ e = EvSystem "wget http://ci.example.com/jnlpJars/agent.jar -O /tmp/agent.jar"
       /\ contacts_coordinator "http://ci.example.com" e.
Proof.
  cbv zeta. split; [vm_compute; discriminate|]. split; [vm_compute; reflexivity|].
  eexists. split; [|split; [reflexivity|vm_compute; reflexivity]].
  vm_compute. do 4 right. left. reflexivity.
Qed.

(** C5, as first stated, fails when the create request is refused: the
    existence check returns false and the create request is sent, but it is
    answered with 500, registration raises, and no configuration update is
    sent. *)
Lemma create_refused_leaves_no_update :
  let st :=
    Demo.boot (Demo.metadata "http://ci.example.com/" "u:p"
               ++ [Demo.respond 200 Demo.listing_empty; Demo.respond 500 ""])
              true in
  let data :=
    {| jenkins_url := Demo.ci;
       name := Some "agent-7";
       jnlp_credentials := Some "u:p";
       jenkins_label := Some "linux" |} in
  check_returns st data Demo.session false
  /\ fst (handle_start st) = Raise (HTTPError 500)
  /\ In (EvHttp (create_request (P := Demo.platform) Demo.ci (Some "agent-7")
                   (Some "linux") Demo.session)
                (Demo.respond 500 ""))
        (trace (snd (handle_start st)))
  /\ forall resp,
       ~ In (EvHttp (update_request Demo.ci (Some "agent-7") (Some "linux")
                       Demo.session) resp)
            (trace (snd (handle_start st))).
Proof.
  cbv zeta. split; [|split; [|split]].
  - eexists. eexists. split; [vm_compute; reflexivity|].
    split; vm_compute; reflexivity.
  - vm_compute. reflexivity.
  - vm_compute. do 5 right. left. reflexivity.
  - intros resp H. vm_compute in H.
    repeat (destruct H as [H|H]; [discriminate H|]). exact H.
Qed.

(** ** More on credentials and the loaded values *)

Lemma split_one (sep : ascii) (s p : string) :
  PyStr.split sep s = [p] -> s = p /\ PyStr.count sep s = 0.
Proof.
  revert p. induction s as [|a s IH]; simpl; intros p H.
  - injection H as <-. now split.
  - destruct (Ascii.eqb a sep).
    + pose proof (split_length sep s) as L.
      destruct (PyStr.split sep s); simpl in L; [discriminate L|inversion H].
    + pose proof (split_length sep s) as L.
      destruct (PyStr.split sep s) as [|p0 ps] eqn:E; [discriminate L|].
      inversion H; subst. destruct (IH p0 eq_refl) as [Hs Hc].
      subst s. rewrite Hc. now split.
Qed.

Lemma split_two (sep : ascii) (s u p : string) :
  PyStr.split sep s = [u; p] ->
  s = u ++ String sep p /\ PyStr.count sep u = 0 /\ PyStr.count sep p = 0.
Proof.
  revert u. induction s as [|a s IH]; simpl; intros u H; [discriminate|].
  destruct (Ascii.eqb a sep) eqn:Ea.
  - inversion H as [[Hu Hs]]. apply Ascii.eqb_eq in Ea. subst a.
    destruct (split_one sep s Hs) as [Hp Hc]. subst. now repeat split.
  - pose proof (split_length sep s) as L.
    destruct (PyStr.split sep s) as [|p0 ps] eqn:E; [discriminate L|].
    inversion H; subst. destruct (IH p0 eq_refl) as [Hs [Hu Hp]].
    subst s. simpl. rewrite Ea. now repeat split.
Qed.

Lemma split_unsplit (sep : ascii) (s : string) :
  PyStr.count sep s = 0 -> PyStr.split sep s = [s].
Proof.
  induction s as [|a s IH]; simpl; [reflexivity|].
  destruct (Ascii.eqb a sep); [discriminate|]. intros H.
  now rewrite (IH H).
Qed.

Lemma split_at_sep (sep : ascii) (u p : string) :
  PyStr.count sep u = 0 ->
  PyStr.split sep (u ++ String sep p) = u :: PyStr.split sep p.
Proof.
  induction u as [|a u IH]; simpl.
  - intros _. now rewrite Ascii.eqb_refl.
  - destruct (Ascii.eqb a sep); [discriminate|]. intros H.
    now rewrite (IH H).
Qed.

(** X1.  The session's user name and password are the two sides of the
    colon: a session with the pair (u, p) is built from the string c exactly
    when c is u, a colon, p, and neither u nor p holds a colon. *)
Theorem session_auth_splits_at_the_colon (c u p : string) :
  get_credentialed_session (Some c) = Ok {| session_auth := (u, p) |}
  <-> c = u ++ ":" ++ p /\ PyStr.count ":" u = 0 /\ PyStr.count ":" p = 0.
Proof.
  unfold get_credentialed_session. split.
  - destruct (PyStr.split ":" c) as [|u' [|p' [|x rest]]] eqn:E;
      try discriminate.
    intros H. inversion H; subst. now apply split_two.
  - intros [-> [Hu Hp]].
    change (u ++ ":" ++ p) with (u ++ String ":" p).
    rewrite (split_at_sep ":" u p Hu), (split_unsplit ":" p Hp).
    reflexivity.
Qed.

Lemma lstrip_slashes_off (s : string) :
  exists m, s = slashes m ++ PyStr.lstrip "/" s.
Proof.
  induction s as [|a s [m IH]]; [now exists 0|]. simpl.
  destruct (Ascii.eqb a "/") eqn:E; simpl.
  - apply Ascii.eqb_eq in E. subst a. exists (S m). simpl. now f_equal.
  - now exists 0.
Qed.

Lemma rstrip_slashes_off (s : string) :
  exists n, s = PyStr.rstrip "/" s ++ slashes n.
Proof.
  induction s as [|a s [n IH]]; [now exists 0|]. simpl.
  destruct (PyStr.rstrip "/" s) as [|b r] eqn:R.
  - destruct (Ascii.eqb a "/") eqn:E; simpl.
    + apply Ascii.eqb_eq in E. subst a. exists (S n). simpl. now f_equal.
    + exists n. simpl. now f_equal.
  - exists n. simpl. now f_equal.
Qed.

Lemma strip_slashes_off (s : string) :
  exists m n, s = slashes m ++ PyStr.strip "/" s ++ slashes n.
Proof.
  destruct (lstrip_slashes_off s) as [m Hm].
  destruct (rstrip_slashes_off (PyStr.lstrip "/" s)) as [n Hn].
  exists m, n. unfold PyStr.strip. now rewrite <- Hn.
Qed.

(** ** More on the metadata loader *)

Section MetadataRuns.

Context {P : Platform}.

(** X2.  With four good answers the loader returns the node name, the
    credentials and the label exactly as they were served, and a coordinator
    URL that differs from the served one only by slashes removed at its two
    ends. *)
Theorem loader_changes_only_the_ends_of_the_url (st : State)
      (node_name raw credentials label : string) (w1 w2 w3 w4 : World) :
  metadata_answers "name" node_name (world st) w1 ->
  metadata_answers "attributes/JENKINS_URL" raw w1 w2 ->
  metadata_answers "attributes/JNLP_CREDENTIALS" credentials w2 w3 ->
  metadata_answers "attributes/JENKINS_AGENT_LABEL" label w3 w4 ->
  exists url m n st',
    load_instance_metadata st =
      (Ok {| jenkins_url := url;
             name := Some node_name;
             jnlp_credentials := Some credentials;
             jenkins_label := Some label |}, st')
    /\ raw = slashes m ++ url ++ slashes n
    /\ world st' = w4.
Proof.
  intros H1 H2 H3 H4.
  destruct (load_instance_metadata_ok st H1 H2 H3 H4) as [st' [E Hw]].
  destruct (strip_slashes_off raw) as [m [n Hraw]].
  exists (PyStr.strip "/" raw), m, n, st'. auto.
Qed.




End MetadataRuns.

(** ** More on the existence check *)

Section ExistenceRuns.

Context {P : Platform}.

Lemma error_status_is_not_ok (s : Z) :
  is_error_status s = true -> (s =? codes.ok)%Z = false.
Proof.
  unfold is_error_status, codes.ok. intros H.
  apply andb_prop in H. destruct H as [H _]. apply Z.leb_le in H.
  apply Z.eqb_neq. lia.
Qed.

Lemma is_already_registered_error_run (jenkins_url : string)
      (name : option string) (session : Session) (st : State)
      (r : Response) (w : World) :
  http_send (node_list_request jenkins_url session) (world st) = (Some r, w) ->
  is_error_status (status_code r) = true ->
  _is_already_registered jenkins_url name session st =
    (Raise (HTTPError (status_code r)),
     {| world := w;
        trace := trace st
                 ++ [EvHttp (node_list_request jenkins_url session) (Some r)];
        log := (log st
                ++ [(INFO, "Checking if worker " ++ PyStr.fmt name
                           ++ " is already registered")])
               ++ [(CRITICAL, "Error checking for existing workers at URL: "
                              ++ node_list_url jenkins_url)] |}).
Proof.
  intros Hsend Herror.
  unfold _is_already_registered. step.
  step_with ltac:(apply send_ok; exact Hsend).
  rewrite (error_status_is_not_ok _ Herror). cbn [negb].
  erewrite bind_raise; [reflexivity|].
  step. cbn [world trace log].
  now rewrite raise_for_status_error by exact Herror.
Qed.

(** X4.  A node-list response with a status in 400..599 makes the
    existence check log the critical line and raise [HTTPError] with that
    status; the body is not looked at. *)
Theorem existence_check_raises_on_error_status (jenkins_url : string)
      (name : option string) (session : Session) (st : State)
      (r : Response) (w : World) :
  http_send (node_list_request jenkins_url session) (world st) = (Some r, w) ->
  is_error_status (status_code r) = true ->
  _is_already_registered jenkins_url name session st =
    (Raise (HTTPError (status_code r)),
     {| world := w;
        trace := trace st
                 ++ [EvHttp (node_list_request jenkins_url session) (Some r)];
        log := (log st
                ++ [(INFO, "Checking if worker " ++ PyStr.fmt name
                           ++ " is already registered")])
               ++ [(CRITICAL, "Error checking for existing workers at URL: "
                              ++ node_list_url jenkins_url)] |}).
Proof.
  intros Hsend Herror.
  assert (Hnot_ok : (status_code r =? codes.ok)%Z = false)
    by exact (error_status_is_not_ok _ Herror).
  unfold _is_already_registered. step.
  step_with ltac:(apply send_ok; exact Hsend).
  rewrite Hnot_ok. cbn [negb].
  erewrite bind_raise; [reflexivity|].
  step. cbn [world trace log].
  now rewrite raise_for_status_error by exact Herror.
Qed.

Lemma scan_computers_skips (name : option string)
      (before rest : list pyval) (st : State) :
  Forall (fun v => is_dict v = true /\ has_display_name name v = false) before ->
  scan_computers name (before ++ rest) st = scan_computers name rest st.
Proof.
  intros H. induction H as [|v before [Hd Hn] _ IH]; [reflexivity|].
  destruct v; try discriminate. simpl in *. now rewrite Hn.
Qed.

(** The check on a 200 response whose document lists [computers]. *)
Lemma is_already_registered_scans (jenkins_url : string)
      (name : option string) (session : Session) (st : State)
      (r : Response) (w : World)
      (entries : list (string * pyval)) (computers : list pyval) :
  http_send (node_list_request jenkins_url session) (world st) = (Some r, w) ->
  status_code r = codes.ok ->
  json_loads (content r) = Some (PDict entries) ->
  Py.dict_get entries "computer" (PList []) = PList computers ->
  exists st1,
    _is_already_registered jenkins_url name session st
    = scan_computers name computers st1.
Proof.
  intros Hsend Hstatus Hjson Hcomputers.
  unfold _is_already_registered. step.
  step_with ltac:(apply send_ok; exact Hsend).
  rewrite Hstatus. simpl. step.
  rewrite Hjson. step. step.
  rewrite Hcomputers. simpl. step. eexists. reflexivity.
Qed.

(** X5.  The scan of the node list stops at the first entry that decides
    it.  After entries that are objects with another display name, an object
    carrying the queried name makes the check return true, and an entry that
    is not an object makes it raise [AttributeError]; in both cases whatever
    the list holds after that entry plays no part. *)
Theorem existence_check_stops_at_first_deciding_entry (jenkins_url : string)
      (name : option string) (session : Session) (st : State)
      (r : Response) (w : World) (entries : list (string * pyval))
      (before after : list pyval) (entry : pyval) :
  http_send (node_list_request jenkins_url session) (world st) = (Some r, w) ->
  status_code r = codes.ok ->
  json_loads (content r) = Some (PDict entries) ->
  Py.dict_get entries "computer" (PList [])
    = PList (before ++ entry :: after) ->
  Forall (fun v => is_dict v = true /\ has_display_name name v = false) before ->
  (has_display_name name entry = true ->
   fst (_is_already_registered jenkins_url name session st) = Ok true)
  /\ (is_dict entry = false ->
      fst (_is_already_registered jenkins_url name session st)
      = Raise AttributeError).
Proof.
  intros Hsend Hstatus Hjson Hcomputers Hbefore.
  destruct (is_already_registered_scans jenkins_url name session st
              Hsend Hstatus Hjson Hcomputers) as [st1 ->].
  rewrite (scan_computers_skips name _ st1 Hbefore).
  split; intros H; destruct entry; try discriminate; simpl in *;
    try reflexivity.
  now rewrite H.
Qed.

Lemma chars_of_nonempty (a : ascii) (s : string) :
  exists c cs, Py.chars (String a s) = c :: cs.
Proof.
  simpl. destruct (Py.chars s) as [|c cs]; [eauto|].
  destruct c as [|b c]; [eauto|].
  destruct (Utf8.cont (N_of_ascii b)); eauto.
Qed.

(** X6.  A 200 response whose document is not a node list.  A body that
    is not JSON raises [JSONDecodeError]; a document that is not an object
    raises [AttributeError]; a [computer] value that cannot be iterated (null,
    a boolean, a number) raises [TypeError]; a [computer] value that is a
    non-empty object or a non-empty string raises [AttributeError], its items
    being strings.  But a [computer] value that is an empty object or an empty
    string is taken for an empty list: the check returns false. *)
Theorem existence_check_on_documents_that_are_not_node_lists
      (jenkins_url : string) (name : option string) (session : Session)
      (st : State) (r : Response) (w : World) :
  http_send (node_list_request jenkins_url session) (world st) = (Some r, w) ->
  status_code r = codes.ok ->
  (json_loads (content r) = None ->
   fst (_is_already_registered jenkins_url name session st)
   = Raise JSONDecodeError)
  /\ (forall v,
        json_loads (content r) = Some v -> is_dict v = false ->
        fst (_is_already_registered jenkins_url name session st)
        = Raise AttributeError)
  /\ (forall entries,
        json_loads (content r) = Some (PDict entries) ->
        Py.iter (Py.dict_get entries "computer" (PList [])) = None ->
        fst (_is_already_registered jenkins_url name session st)
        = Raise TypeError)
  /\ (forall entries,
        json_loads (content r) = Some (PDict entries) ->
        (exists key value more,
           Py.dict_get entries "computer" (PList [])
           = PDict ((key, value) :: more))
        \/ (exists a s,
              Py.dict_get entries "computer" (PList []) = PStr (String a s)) ->
        fst (_is_already_registered jenkins_url name session st)
        = Raise AttributeError)
  /\ (forall entries,
        json_loads (content r) = Some (PDict entries) ->
        Py.dict_get entries "computer" (PList []) = PDict []
        \/ Py.dict_get entries "computer" (PList []) = PStr "" ->
        fst (_is_already_registered jenkins_url name session st) = Ok false).
Proof.
  intros Hsend Hstatus.
  assert (Hrun : forall k : Response -> M bool,
    bind (logger_info ("Checking if worker " ++ PyStr.fmt name
                       ++ " is already registered"))
      (fun _ => bind (send (node_list_request jenkins_url session)) k) st
    = k r {| world := w;
             trace := trace st
                      ++ [EvHttp (node_list_request jenkins_url session)
                                 (Some r)];
             log := log st
                    ++ [(INFO, "Checking if worker " ++ PyStr.fmt name
                               ++ " is already registered")] |}).
  { intros k. step. step_with ltac:(apply send_ok; exact Hsend). reflexivity. }
  unfold _is_already_registered. rewrite Hrun. rewrite Hstatus. simpl.
  split; [|split; [|split; [|split]]].
  - intros ->. step. reflexivity.
  - intros v -> Hv. step. step. destruct v; try discriminate; reflexivity.
  - intros entries -> Hiter. step. step. step. rewrite Hiter. reflexivity.
  - intros entries -> Hvalue. step. step.
    destruct Hvalue as [[key [value [more Hvalue]]]|[a [s Hvalue]]];
      rewrite Hvalue; step.
    + reflexivity.
    + cbn [Py.iter]. destruct (chars_of_nonempty a s) as [c [cs Hchars]].
      rewrite Hchars. reflexivity.
  - intros entries -> Hvalue. step. step.
    destruct Hvalue as [Hvalue|Hvalue]; rewrite Hvalue; step; reflexivity.
Qed.

End ExistenceRuns.

(** ** More on deregistration and the shutdown flow *)

Section ShutdownRuns.

Context {P : Platform}.

(** X7.  When the delete request is answered with something other than
    302 and the existence check that follows is itself answered with a status
    in 400..599, deregistration raises the error of the check, not that of the
    delete, having sent these two requests. *)
Theorem deregister_raises_the_error_of_a_failed_recheck
  (jenkins_url : string) (name credentials : option string)
  (session : Session) (st : State) (delete_r list_r : Response)
  (w1 w2 : World) :
  get_credentialed_session credentials = Ok session ->
  http_send (delete_request jenkins_url name session) (world st)
    = (Some delete_r, w1) ->
  status_code delete_r <> codes.found ->
  http_send (node_list_request jenkins_url session) w1 = (Some list_r, w2) ->
  is_error_status (status_code list_r) = true ->
  fst (_deregister_with_jenkins_master jenkins_url name credentials st)
  = Raise (HTTPError (status_code list_r))
  /\ trace (snd (_deregister_with_jenkins_master jenkins_url name credentials
                  st))
     = (trace st
        ++ [EvHttp (delete_request jenkins_url name session) (Some delete_r);
            EvHttp (node_list_request jenkins_url session) (Some list_r)])%list.
Proof.
  intros Hsession Hdelete Hstatus Hlist Herror.
  unfold _deregister_with_jenkins_master. step.
  step_with ltac:(unfold lift; rewrite Hsession; reflexivity).
  step_with ltac:(apply send_ok; exact Hdelete).
  destruct (status_code delete_r =? codes.found)%Z eqn:E;
    [apply Z.eqb_eq in E; contradiction|].
  erewrite bind_raise
    by (apply is_already_registered_error_run; [exact Hlist|exact Herror]).
  cbn [fst snd trace]. split; [reflexivity|]. now rewrite <- app_assoc.
Qed.

(** The calls of a deregistration whose session could be built: the
    delete, and what follows it. *)
Lemma deregister_calls (jenkins_url : string) (name credentials : option string)
      (session : Session) (st : State) :
  get_credentialed_session credentials = Ok session ->
  exists resp tail,
    trace (snd (_deregister_with_jenkins_master jenkins_url name credentials
                  st))
    = (trace st
       ++ EvHttp (delete_request jenkins_url name session) resp :: tail)%list
    /\ after_delete resp (node_list_request jenkins_url session) tail.
Proof.
  intros Hsession.
  unfold _deregister_with_jenkins_master. step.
  step_with ltac:(unfold lift; rewrite Hsession; reflexivity).
  unfold bind at 1, send. cbn [world trace log].
  destruct (http_send (delete_request jenkins_url name session) (world st))
    as [[delete_r|] w].
  2:{ exists None, []. now split. }
  exists (Some delete_r). unfold after_delete.
  destruct (status_code delete_r =? codes.found)%Z.
  { exists []. now split. }
  match goal with |- context [bind (_is_already_registered _ _ _) ?k ?s] =>
    set (tail := k); set (s1 := s)
  end.
  destruct (is_already_registered_trace jenkins_url name session s1)
    as [resp' Ht].
  assert (Hend : trace (snd (bind (_is_already_registered jenkins_url name
                                     session) tail s1))
                 = trace (snd (_is_already_registered jenkins_url name
                                 session s1))).
  { unfold bind at 1, tail.
    destruct (_is_already_registered jenkins_url name session s1)
      as [[[|]|e] s2]; cbn [negb snd]; try reflexivity.
    unfold bind, logger_critical, emit, raise_for_status, raise, ret.
    destruct (is_error_status (status_code delete_r)); reflexivity. }
  exists [EvHttp (node_list_request jenkins_url session) resp']. split.
  - rewrite Hend, Ht. unfold s1. cbn [trace]. rewrite <- app_assoc.
    reflexivity.
  - now exists resp'.
Qed.

Lemma deregister_without_session (jenkins_url : string)
      (name credentials : option string) (e : Exn) (st : State) :
  get_credentialed_session credentials = Raise e ->
  trace (snd (_deregister_with_jenkins_master jenkins_url name credentials st))
  = trace st.
Proof.
  intros Hsession. unfold _deregister_with_jenkins_master. step.
  erewrite bind_raise by (unfold lift; rewrite Hsession; reflexivity).
  reflexivity.
Qed.

(** X8.  The calls of the shutdown flow, in order.  First the metadata
    fetches.  If the load raised, or the loaded credentials do not split,
    nothing more.  Otherwise the delete call for the loaded URL and name,
    followed by exactly one node-list call when the delete returned a status
    other than 302, and by nothing when it returned 302 or no response.  The
    flow makes no other call to the HTTP library and starts no process. *)
Theorem shutdown_makes_the_delete_call_and_little_else (st : State) :
  exists fetches rest,
    trace (snd (handle_shutdown st)) = (trace st ++ fetches ++ rest)%list
    /\ Forall metadata_fetch fetches
    /\ match fst (load_instance_metadata st) with
       | Raise _ => rest = []
       | Ok data =>
           match get_credentialed_session (jnlp_credentials data) with
           | Raise _ => rest = []
           | Ok session =>
               exists resp tail,
                 rest = EvHttp (delete_request (jenkins_url data) (name data)
                                  session) resp :: tail
                 /\ after_delete resp
                      (node_list_request (jenkins_url data) session) tail
           end
       end.
Proof.
  unfold handle_shutdown.
  destruct (load_instance_metadata_emits st) as [fetches [Ht Hq]].
  destruct (load_instance_metadata st) as [[data|e] st0] eqn:Hload;
    cbn [fst snd] in *.
  2:{ erewrite bind_raise by exact Hload. exists fetches, [].
      rewrite app_nil_r. auto. }
  step_with ltac:(exact Hload).
  destruct (get_credentialed_session (jnlp_credentials data))
    as [session|e] eqn:Hsession.
  - destruct (@deregister_calls (jenkins_url data) (name data)
                (jnlp_credentials data) session st0 Hsession)
      as [resp [tail [Hcalls Htail]]].
    exists fetches, (EvHttp (delete_request (jenkins_url data) (name data)
                               session) resp :: tail).
    split; [|split; [exact Hq|]].
    + rewrite Hcalls, Ht. now rewrite app_assoc.
    + now exists resp, tail.
  - exists fetches, []. split; [|now split].
    rewrite (@deregister_without_session (jenkins_url data) (name data)
               (jnlp_credentials data) e st0 Hsession).
    now rewrite app_nil_r.
Qed.

(** X9.  A shutdown that goes well.  If the four metadata calls return
    200, the credentials served are u:p with no colon in u or p, and the
    delete call that is then made returns 302, the flow returns.  That delete
    call is made with the URL string formed of the stripped coordinator URL,
    /computer/, the node name and /doDelete, and with u and p as credentials;
    no call precedes it but the metadata fetches and none follows it. *)
Theorem shutdown_deletes_the_loaded_node (st : State)
      (node_name raw u p label : string) (w1 w2 w3 w4 w5 : World)
      (r : Response) :
  metadata_answers "name" node_name (world st) w1 ->
  metadata_answers "attributes/JENKINS_URL" raw w1 w2 ->
  metadata_answers "attributes/JNLP_CREDENTIALS" (u ++ ":" ++ p) w2 w3 ->
  metadata_answers "attributes/JENKINS_AGENT_LABEL" label w3 w4 ->
  PyStr.count ":" u = 0 ->
  PyStr.count ":" p = 0 ->
  let request :=
    delete_request (PyStr.strip "/" raw) (Some node_name)
      {| session_auth := (u, p) |} in
  http_send request w4 = (Some r, w5) ->
  status_code r = codes.found ->
  exists st' fetches,
    handle_shutdown st = (Ok tt, st')
    /\ world st' = w5
    /\ trace st' = (trace st ++ fetches ++ [EvHttp request (Some r)])%list
    /\ Forall metadata_fetch fetches
    /\ url request
       = PyStr.strip "/" raw ++ "/computer/" ++ node_name ++ "/doDelete"
    /\ auth request = Some (u, p).
Proof.
  intros H1 H2 H3 H4 Hu Hp request Hsend Hstatus.
  destruct (load_instance_metadata_ok st H1 H2 H3 H4) as [st0 [Hload Hw]].
  destruct (@only_emits_run _ _ _ _ _ _ _ load_instance_metadata_emits Hload)
    as [fetches [Ht Hq]].
  assert (Hsession : get_credentialed_session (Some (u ++ ":" ++ p))
                     = Ok {| session_auth := (u, p) |}).
  { change (u ++ ":" ++ p) with (u ++ String ":" p).
    unfold get_credentialed_session.
    now rewrite (split_at_sep ":" u p Hu), (split_unsplit ":" p Hp). }
  unfold handle_shutdown. step_with ltac:(exact Hload).
  cbn [jenkins_url name jnlp_credentials].
  unfold _deregister_with_jenkins_master. step.
  step_with ltac:(unfold lift; rewrite Hsession; reflexivity).
  rewrite <- Hw in Hsend.
  step_with ltac:(apply send_ok; exact Hsend).
  rewrite Hstatus. cbn [Z.eqb codes.found Pos.eqb].
  eexists. exists fetches. split; [reflexivity|].
  cbn [world trace]. rewrite Ht.
  split; [reflexivity|]. split; [now rewrite <- app_assoc|].
  split; [exact Hq|]. split; reflexivity.
Qed.

End ShutdownRuns.

(** ** More on registration and the secret *)

Section RegistrationRuns.

Context {P : Platform}.

(** X10.  Once the create request has been answered with 302, the answer
    to the configuration update decides the outcome: a status in 400..599
    raises [HTTPError] with that status, any other status lets registration
    return.  Either way the two requests are all it sent. *)
Theorem registration_outcome_follows_the_update
  (jenkins_url : string) (name : option string) (session : Session)
  (jenkins_label : option string) (st : State)
  (create_r update_r : Response) (w1 w2 : World) :
  http_send (create_request jenkins_url name jenkins_label session) (world st)
    = (Some create_r, w1) ->
  status_code create_r = codes.found ->
  http_send (update_request jenkins_url name jenkins_label session) w1
    = (Some update_r, w2) ->
  _do_registration jenkins_url name session jenkins_label st =
    ((if is_error_status (status_code update_r)
      then Raise (HTTPError (status_code update_r)) else Ok tt),
     {| world := w2;
        trace := trace st
                 ++ [EvHttp (create_request jenkins_url name jenkins_label
                               session) (Some create_r);
                     EvHttp (update_request jenkins_url name jenkins_label
                               session) (Some update_r)];
        log := log st
               ++ [(INFO, "Registering worker " ++ PyStr.fmt name
                          ++ " with Jenkins " ++ jenkins_url);
                   (INFO, "Updating " ++ update_url jenkins_url name)] |}).
Proof.
  intros Hcreate Hfound Hupdate.
  unfold _do_registration. step.
  step_with ltac:(apply send_ok; exact Hcreate).
  rewrite Hfound. cbn [Z.eqb codes.found Pos.eqb negb]. step. step.
  step_with ltac:(apply send_ok; exact Hupdate).
  cbn [world trace log]. rewrite <- !app_assoc. cbn [app].
  destruct (status_code update_r =? codes.ok)%Z eqn:Hok; cbn [negb].
  - apply Z.eqb_eq in Hok. rewrite Hok. reflexivity.
  - unfold raise_for_status.
    destruct (is_error_status (status_code update_r)); reflexivity.
Qed.

Lemma find_first {A} (f : A -> bool) (before after : list A) (x : A) :
  Forall (fun y => f y = false) before -> f x = true ->
  List.find f (before ++ x :: after) = Some x.
Proof.
  intros Hbefore Hx. induction Hbefore as [|y before Hy _ IH]; simpl.
  - now rewrite Hx.
  - now rewrite Hy.
Qed.

(** X11.  The secret is the text of the first [argument] child of the
    first [application-desc] child of the root, whatever else the document
    holds; when that element has no text the secret returned is [None]. *)
Theorem secret_is_the_text_of_the_first_argument
  (jenkins_url : string) (name : option string) (session : Session)
  (st : State) (r : Response) (w : World) (xml_content root_tag : string)
  (root_text desc_text secret : option string)
  (before after before' after' kids : list Element) :
  http_send (secret_request jenkins_url name session) (world st) = (Some r, w) ->
  status_code r = codes.ok ->
  Utf8.decode (content r) = Some xml_content ->
  xml_fromstring xml_content
  = Some (Elem root_tag root_text
            (before
             ++ Elem "application-desc" desc_text
                  (before' ++ Elem "argument" secret kids :: after')
                :: after)) ->
  Forall (fun e => String.eqb (ET.tag e) "application-desc" = false) before ->
  Forall (fun e => String.eqb (ET.tag e) "argument" = false) before' ->
  fst (_get_jnlp_secret jenkins_url name session st) = Ok secret.
Proof.
  intros Hsend Hstatus Hdecode Hparse Hbefore Hbefore'.
  unfold _get_jnlp_secret. step.
  step_with ltac:(apply send_ok; exact Hsend).
  rewrite Hstatus. cbn [negb Z.eqb codes.ok Pos.eqb]. step.
  unfold decode_utf8. rewrite Hdecode. step.
  rewrite Hparse. step.
  unfold extract_secret, ET.find. cbn [ET.children].
  erewrite find_first; [|exact Hbefore|reflexivity]. cbn [ET.children].
  erewrite find_first; [|exact Hbefore'|reflexivity].
  reflexivity.
Qed.

End RegistrationRuns.

(** ** More on the two flows *)

Section FlowRuns.

Context {P : Platform}.

Lemma is_already_registered_emits (Q : Event -> Prop) (jenkins_url : string)
      (name : option string) (session : Session) :
  (forall resp, Q (EvHttp (node_list_request jenkins_url session) resp)) ->
  only_emits Q (_is_already_registered jenkins_url name session).
Proof.
  intros HQ st.
  destruct (is_already_registered_trace jenkins_url name session st)
    as [resp Ht].
  exists [EvHttp (node_list_request jenkins_url session) resp].
  split; [exact Ht|]. constructor; [apply HQ|constructor].
Qed.

Lemma do_registration_emits (Q : Event -> Prop) (jenkins_url : string)
      (name : option string) (session : Session)
      (jenkins_label : option string) :
  (forall resp,
     Q (EvHttp (create_request jenkins_url name jenkins_label session) resp)) ->
  (forall resp,
     Q (EvHttp (update_request jenkins_url name jenkins_label session) resp)) ->
  only_emits Q (_do_registration jenkins_url name session jenkins_label).
Proof.
  intros Hcreate Hupdate st.
  destruct (do_registration_trace jenkins_url name session jenkins_label st)
    as [resp [rest [Ht Hrest]]].
  eexists. split; [exact Ht|].
  constructor; [apply Hcreate|].
  destruct Hrest as [->|[resp' ->]]; [constructor|].
  constructor; [apply Hupdate|constructor].
Qed.

Lemma get_jnlp_secret_emits_any (Q : Event -> Prop) (jenkins_url : string)
      (name : option string) (session : Session) :
  (forall resp, Q (EvHttp (secret_request jenkins_url name session) resp)) ->
  only_emits Q (_get_jnlp_secret jenkins_url name session).
Proof.
  intros HQ. unfold _get_jnlp_secret, extract_secret. emits.
  now apply only_emits_send.
Qed.

Lemma launches_system (Q : Event -> Prop) (C : string -> Prop)
      (command : string) :
  C command -> launches Q C (system command).
Proof.
  intros HC st. exists [EvSystem command]. split; [reflexivity|].
  cbn [fst system]. exists [], command. auto.
Qed.

Lemma launches_bind {A} (Q : Event -> Prop) (C : string -> Prop)
      (m : M A) (k : A -> M unit) :
  only_emits Q m -> (forall a, launches Q C (k a)) -> launches Q C (bind m k).
Proof.
  intros Hm Hk st. unfold bind.
  destruct (Hm st) as [evs [Ht Hq]].
  destruct (m st) as [[a|e] st1]; cbn [snd] in Ht.
  - destruct (Hk a st1) as [evs' [Ht' Hend]].
    exists (evs ++ evs')%list. split; [now rewrite Ht', Ht, app_assoc|].
    destruct (fst (k a st1)).
    + destruct Hend as [before [command [-> [HC Hbefore]]]].
      exists (evs ++ before)%list, command.
      split; [now rewrite app_assoc|]. split; [exact HC|].
      apply Forall_app. now split.
    + apply Forall_app. now split.
  - exists evs. now split.
Qed.

Lemma metadata_fetch_no_launch (e : Event) : metadata_fetch e -> no_launch e.
Proof. destruct e; simpl; tauto. Qed.

Lemma before_session_no_launch (jenkins_url : string) (e : Event) :
  before_session jenkins_url e -> no_launch e.
Proof. destruct e; simpl; [tauto|]. intros ->. now exists jenkins_url. Qed.

(** The shape of a start run: a java command at the very end of a run
    that returns, none anywhere else. *)
Lemma handle_start_launch_shape (st : State) :
  (forall jenkins_url name secret,
     ~ no_launch (EvSystem (java_jar_agent_command jenkins_url name secret)))
  /\ exists evs,
       trace (snd (handle_start st)) = (trace st ++ evs)%list
       /\ match fst (handle_start st) with
          | Ok _ =>
              exists data st0 secret before,
                load_instance_metadata st = (Ok data, st0)
                /\ evs = (before
                          ++ [EvSystem (java_jar_agent_command
                                          (jenkins_url data) (name data)
                                          secret)])%list
                /\ Forall no_launch before
          | Raise _ => Forall no_launch evs
          end.
Proof.
  split.
  { intros jenkins_url name secret [url H]. discriminate H. }
  destruct (load_instance_metadata st) as [[data|e] st0] eqn:Hload.
  2:{ destruct (@only_emits_run _ _ _ _ _ _ _ load_instance_metadata_emits Hload)
        as [evs [Ht Hq]].
      exists evs. unfold handle_start. erewrite bind_raise by exact Hload.
      split; [exact Ht|]. cbn [fst].
      eapply Forall_impl; [|exact Hq]. apply metadata_fetch_no_launch. }
  destruct (handle_start_prologue_trace st Hload) as [pre [Hpre Qpre]].
  unfold handle_start. cbv zeta.
  erewrite handle_start_prologue by exact Hload.
  match goal with |- context [?m (after_jar_step _ _)] =>
    assert (Hrest : launches no_launch
              (fun command =>
                 exists secret,
                   command = java_jar_agent_command (jenkins_url data)
                               (name data) secret) m)
  end.
  { apply launches_bind; [auto with emits|intros session].
    apply launches_bind;
      [apply is_already_registered_emits; intros; exact I|intros registered].
    apply launches_bind;
      [destruct registered; cbn [negb];
       [auto with emits|apply do_registration_emits; intros; exact I]
      |intros _].
    apply launches_bind;
      [apply get_jnlp_secret_emits_any; intros; exact I|intros secret].
    apply launches_bind; [unfold logger_info; auto with emits|intros _].
    apply launches_system. now exists secret. }
  destruct (Hrest (after_jar_step (jenkins_url data) st0))
    as [evs [Ht Hend]].
  assert (Qpre' : Forall no_launch pre).
  { eapply Forall_impl; [|exact Qpre]. apply before_session_no_launch. }
  exists (pre ++ evs)%list. split; [now rewrite Ht, Hpre, app_assoc|].
  match goal with |- match fst ?run with _ => _ end =>
    destruct (fst run) end.
  - destruct Hend as [before [command [-> [[secret ->] Hbefore]]]].
    exists data, st0, secret, (pre ++ before)%list.
    split; [reflexivity|]. split; [now rewrite app_assoc|].
    apply Forall_app. now split.
  - apply Forall_app. now split.
Qed.

(** Once the secret is fetched the run starts the agent with it and
    returns. *)
Lemma handle_start_launches (st st4 : State) (data : InstanceData)
      (session : Session) (secret : option string) :
  secret_fetched st data session secret st4 ->
  handle_start st =
    (Ok tt,
     {| world := os_system (java_jar_agent_command (jenkins_url data)
                              (name data) secret) (world st4);
        trace := trace st4
                 ++ [EvSystem (java_jar_agent_command (jenkins_url data)
                                 (name data) secret)];
        log := log st4 ++ [(INFO, "Starting agent and connecting over jnlp")] |}).
Proof.
  intros [st0 [registered [st2 [st3 [Hload [Hsession [Hcheck [Hreg Hsecret]]]]]]]].
  unfold handle_start. cbv zeta.
  erewrite handle_start_prologue by exact Hload.
  step_with ltac:(unfold lift; rewrite Hsession; reflexivity).
  step_with ltac:(exact Hcheck).
  step_with ltac:(exact Hreg).
  step_with ltac:(exact Hsecret).
  step. reflexivity.
Qed.

(** A run that returns has fetched the secret. *)
Lemma handle_start_returned (st : State) (u : unit) :
  fst (handle_start st) = Ok u ->
  exists data session secret st4, secret_fetched st data session secret st4.
Proof.
  unfold handle_start. cbv zeta. intros Hok.
  destruct (load_instance_metadata st) as [[data|e] st0] eqn:Hload;
    [|erewrite bind_raise in Hok by exact Hload; discriminate Hok].
  erewrite handle_start_prologue in Hok by exact Hload.
  destruct (get_credentialed_session (jnlp_credentials data))
    as [session|e] eqn:Hsession;
    [|erewrite bind_raise in Hok by reflexivity; discriminate Hok].
  erewrite bind_ok in Hok by reflexivity.
  destruct (_is_already_registered (jenkins_url data) (name data) session
              (after_jar_step (jenkins_url data) st0))
    as [[registered|e] st2] eqn:Hcheck;
    [|erewrite bind_raise in Hok by exact Hcheck; discriminate Hok].
  erewrite bind_ok in Hok by exact Hcheck.
  destruct ((if negb registered
             then _do_registration (jenkins_url data) (name data) session
                    (jenkins_label data)
             else ret tt) st2) as [[[]|e] st3] eqn:Hreg;
    [|erewrite bind_raise in Hok by exact Hreg; discriminate Hok].
  erewrite bind_ok in Hok by exact Hreg.
  destruct (_get_jnlp_secret (jenkins_url data) (name data) session st3)
    as [[secret|e] st4] eqn:Hsecret;
    [|erewrite bind_raise in Hok by exact Hsecret; discriminate Hok].
  exists data, session, secret, st4, st0, registered, st2, st3.
  rewrite Hsession. auto.
Qed.

(** X12.  The agent is started exactly by the runs of the start flow in
    which every earlier step returned, with the secret the secret fetch
    returned, and starting it is the last thing the run does.  A run that
    returns has fetched a secret and ends with the java command built from the
    loaded URL, the loaded name and that secret, having run no other java
    command; a run that raises has fetched no secret and run no java
    command. *)
Theorem agent_is_launched_last_and_only_on_success (st : State) :
  (forall jenkins_url name secret,
     ~ no_launch (EvSystem (java_jar_agent_command jenkins_url name secret)))
  /\ exists evs,
       trace (snd (handle_start st)) = (trace st ++ evs)%list
       /\ match fst (handle_start st) with
          | Ok _ =>
              exists data session secret st4 before,
                secret_fetched st data session secret st4
                /\ trace st4 = (trace st ++ before)%list
                /\ evs = (before
                          ++ [EvSystem (java_jar_agent_command
                                          (jenkins_url data) (name data)
                                          secret)])%list
                /\ Forall no_launch before
          | Raise _ =>
              Forall no_launch evs
              /\ forall data session secret st4,
                   ~ secret_fetched st data session secret st4
          end.
Proof.
  destruct (handle_start_launch_shape st) as [Hjava [evs [Ht Hshape]]].
  split; [exact Hjava|]. exists evs. split; [exact Ht|].
  destruct (fst (handle_start st)) as [u|e] eqn:Hresult.
  - destruct (handle_start_returned st Hresult)
      as [data [session [secret [st4 Hfetched]]]].
    destruct Hshape as [data' [st0' [secret' [before [_ [Hevs Hbefore]]]]]].
    exists data, session, secret, st4, before.
    split; [exact Hfetched|].
    rewrite (handle_start_launches Hfetched) in Ht. cbn [snd trace] in Ht.
    rewrite Hevs, app_assoc in Ht.
    apply app_inj_tail in Ht. destruct Ht as [Ht Hcommand].
    split; [exact Ht|]. split; [|exact Hbefore].
    rewrite Hevs. now rewrite Hcommand.
  - split; [exact Hshape|].
    intros data session secret st4 Hfetched.
    rewrite (handle_start_launches Hfetched) in Hresult. discriminate Hresult.
Qed.

Lemma after_jar_step_events (jenkins_url : string) (st : State) :
  trace (after_jar_step jenkins_url st)
  = (trace st
     ++ (if path_exists JENKINS_AGENT_JAR_LOCAL_PATH (world st) then []
         else [EvSystem (wget_command jenkins_url)]))%list.
Proof.
  unfold after_jar_step.
  destruct (path_exists JENKINS_AGENT_JAR_LOCAL_PATH (world st));
    [now rewrite app_nil_r|reflexivity].
Qed.

Lemma bind_trace_extends {A B} (Q : Event -> Prop) (m : M A)
      (k : A -> M B) (st : State) :
  (forall a, only_emits Q (k a)) ->
  exists more,
    trace (snd (bind m k st)) = (trace (snd (m st)) ++ more)%list
    /\ Forall Q more.
Proof.
  intros Hk. unfold bind. destruct (m st) as [[a|e] st1]; cbn [snd].
  - exact (Hk a st1).
  - exists []. now rewrite app_nil_r.
Qed.

(** X14.  The agent jar is downloaded exactly when its file is missing
    once the metadata has been loaded.  The download, if any, comes right
    after the metadata fetches and there is no other.  Whatever it did, the
    run goes on to build its session: with credentials that split, the next
    thing the run does is the node-list request of the existence check, and
    with credentials that do not, the run raises their error having done
    nothing more. *)
Theorem jar_is_downloaded_exactly_when_missing (st st0 : State)
      (data : InstanceData) :
  load_instance_metadata st = (Ok data, st0) ->
  (forall jenkins_url, ~ no_download (EvSystem (wget_command jenkins_url)))
  /\ exists fetches rest,
       trace (snd (handle_start st))
       = (trace st ++ fetches
          ++ (if path_exists JENKINS_AGENT_JAR_LOCAL_PATH (world st0) then []
              else [EvSystem (wget_command (jenkins_url data))])
          ++ rest)%list
       /\ Forall metadata_fetch fetches
       /\ Forall no_download rest
       /\ (forall session,
             get_credentialed_session (jnlp_credentials data) = Ok session ->
             exists resp rest',
               rest = EvHttp (node_list_request (jenkins_url data) session)
                             resp :: rest')
       /\ (forall e,
             get_credentialed_session (jnlp_credentials data) = Raise e ->
             rest = [] /\ fst (handle_start st) = Raise e).
Proof.
  intros Hload. split.
  { intros jenkins_url [url [name [secret H]]]. discriminate H. }
  destruct (@only_emits_run _ _ _ _ _ _ _ load_instance_metadata_emits Hload)
    as [fetches [Hfetches Qfetches]].
  assert (Hcases : exists res,
            get_credentialed_session (jnlp_credentials data) = res)
    by eauto.
  destruct Hcases as [[session|e] Hsession].
  - (* the session is built *)
    destruct (is_already_registered_trace (jenkins_url data) (name data)
                session (after_jar_step (jenkins_url data) st0))
      as [resp Hlist].
    unfold handle_start. cbv zeta.
    erewrite handle_start_prologue by exact Hload.
    step_with ltac:(unfold lift; rewrite Hsession; reflexivity).
    match goal with |- context [bind ?m ?k (after_jar_step _ _)] =>
      destruct (@bind_trace_extends _ _ no_download m k
                  (after_jar_step (jenkins_url data) st0))
        as [more [Hmore Qmore]]
    end.
    { intros registered.
      apply only_emits_bind;
        [destruct registered; cbn [negb];
         [auto with emits|apply do_registration_emits; intros; exact I]
        |intros _].
      apply only_emits_bind;
        [apply get_jnlp_secret_emits_any; intros; exact I|intros secret].
      apply only_emits_bind; [unfold logger_info; auto with emits|intros _].
      apply only_emits_system. simpl. eauto. }
    exists fetches,
      (EvHttp (node_list_request (jenkins_url data) session) resp :: more).
    split; [|split; [exact Qfetches|split; [|split]]].
    + rewrite Hmore, Hlist, after_jar_step_events, Hfetches.
      rewrite <- !app_assoc. reflexivity.
    + constructor; [exact I|exact Qmore].
    + intros session' Hsession'. rewrite Hsession in Hsession'.
      injection Hsession' as <-. now exists resp, more.
    + intros e He. rewrite Hsession in He. discriminate He.
  - (* the credentials do not split *)
    unfold handle_start. cbv zeta.
    erewrite handle_start_prologue by exact Hload.
    erewrite bind_raise by (unfold lift; rewrite Hsession; reflexivity).
    exists fetches, []. cbn [fst snd].
    split; [|split; [exact Qfetches|split; [constructor|split]]].
    + rewrite after_jar_step_events, Hfetches, app_nil_r.
      now rewrite <- app_assoc.
    + intros session Hsession'. rewrite Hsession in Hsession'.
      discriminate Hsession'.
    + intros e' He'. rewrite Hsession in He'. injection He' as <-.
      now split.
Qed.

End FlowRuns.

(** ** The further theorems at concrete inputs *)

Lemma loader_changes_only_the_ends_of_the_url_witness :
  exists url m n st',
    load_instance_metadata
      (Demo.boot (Demo.metadata "//ci.example.com/jenkins//" "u:p") true)
    = (Ok {| jenkins_url := url;
             name := Some "agent-7";
             jnlp_credentials := Some "u:p";
             jenkins_label := Some "linux" |}, st')
    /\ "//ci.example.com/jenkins//" = slashes m ++ url ++ slashes n.
Proof.
  edestruct (loader_changes_only_the_ends_of_the_url (P := Demo.platform)
               (Demo.boot (Demo.metadata "//ci.example.com/jenkins//" "u:p")
                          true)
               (node_name := "agent-7") (raw := "//ci.example.com/jenkins//")
               (credentials := "u:p") (label := "linux"))
    as [url [m [n [st' [Hrun [Hraw _]]]]]];
    [eexists; repeat split; reflexivity ..|].
  exists url, m, n, st'. now split.
Defined.

Lemma existence_check_raises_on_error_status_witness :
  fst (_is_already_registered Demo.ci Demo.agent Demo.session
         (Lab.boot [Demo.respond 503 "busy"] true))
  = Raise (HTTPError 503).
Proof.
  erewrite (existence_check_raises_on_error_status (P := Lab.platform)
              Demo.ci Demo.agent Demo.session
              (Lab.boot [Demo.respond 503 "busy"] true));
    cycle 1; [reflexivity | reflexivity | reflexivity].
Defined.

Lemma existence_check_stops_at_first_deciding_entry_witness :
  fst (_is_already_registered Demo.ci Demo.agent Demo.session
         (Lab.boot [Demo.respond 200 Lab.listing_mixed] true))
  = Ok true.
Proof.
  eapply (@existence_check_stops_at_first_deciding_entry Lab.platform)
    with (before := [PDict [("displayName", PStr "built-in")]])
         (entry := PDict [("displayName", PStr "agent-7")])
         (after := [PInt 5]);
    try reflexivity.
  repeat constructor.
Defined.

Lemma existence_check_on_documents_that_are_not_node_lists_witness :
  fst (_is_already_registered Demo.ci Demo.agent Demo.session
         (Lab.boot [Demo.respond 200 "null"] true))
  = Raise AttributeError
  /\ fst (_is_already_registered Demo.ci Demo.agent Demo.session
            (Lab.boot [Demo.respond 200 "<html>"] true))
     = Raise JSONDecodeError
  /\ fst (_is_already_registered Demo.ci Demo.agent Demo.session
            (Lab.boot [Demo.respond 200 Lab.listing_object] true))
     = Ok false.
Proof.
  split; [|split].
  - edestruct (existence_check_on_documents_that_are_not_node_lists
                 (P := Lab.platform) Demo.ci Demo.agent Demo.session
                 (Lab.boot [Demo.respond 200 "null"] true))
      as [_ [Hshape _]]; [reflexivity|reflexivity|].
    apply (Hshape PNone); reflexivity.
  - edestruct (existence_check_on_documents_that_are_not_node_lists
                 (P := Lab.platform) Demo.ci Demo.agent Demo.session
                 (Lab.boot [Demo.respond 200 "<html>"] true))
      as [Hjson _]; [reflexivity|reflexivity|].
    apply Hjson. reflexivity.
  - edestruct (existence_check_on_documents_that_are_not_node_lists
                 (P := Lab.platform) Demo.ci Demo.agent Demo.session
                 (Lab.boot [Demo.respond 200 Lab.listing_object] true))
      as [_ [_ [_ [_ Hempty]]]]; [reflexivity|reflexivity|].
    apply (Hempty [("computer", PDict [])]); [reflexivity|now left].
Defined.

Lemma deregister_raises_the_error_of_a_failed_recheck_witness :
  fst (_deregister_with_jenkins_master Demo.ci Demo.agent (Some "u:p")
         (Lab.boot [Demo.respond 404 ""; Demo.respond 503 ""] true))
  = Raise (HTTPError 503).
Proof.
  assert (Hstatus : (404 <> codes.found)%Z) by (vm_compute; discriminate).
  destruct (@deregister_raises_the_error_of_a_failed_recheck Lab.platform
              Demo.ci Demo.agent (Some "u:p") Demo.session
              (Lab.boot [Demo.respond 404 ""; Demo.respond 503 ""] true)
              {| status_code := 404; content := [] |}
              {| status_code := 503; content := [] |}
              {| Demo.script := [Demo.respond 503 ""]; Demo.jar := true |}
              {| Demo.script := []; Demo.jar := true |}
              eq_refl eq_refl Hstatus eq_refl eq_refl)
    as [Hraise _].
  exact Hraise.
Defined.

Lemma shutdown_deletes_the_loaded_node_witness :
  exists st',
    handle_shutdown
      (Demo.boot (Demo.metadata "http://ci.example.com/" "u:p"
                  ++ [Demo.respond 302 ""]) true)
    = (Ok tt, st').
Proof.
  edestruct (shutdown_deletes_the_loaded_node (P := Demo.platform)
               (Demo.boot (Demo.metadata "http://ci.example.com/" "u:p"
                           ++ [Demo.respond 302 ""]) true)
               "u" "p"
               (node_name := "agent-7") (raw := "http://ci.example.com/")
               (label := "linux"))
    as [st' [fetches [Hrun _]]];
    [eexists; repeat split; reflexivity ..
    | reflexivity | reflexivity | reflexivity | reflexivity |].
  exists st'. exact Hrun.
Defined.

Lemma registration_outcome_follows_the_update_witness :
  fst (_do_registration Demo.ci Demo.agent Demo.session (Some "linux")
         (Lab.boot [Demo.respond 302 ""; Demo.respond 500 ""] true))
  = Raise (HTTPError 500).
Proof.
  erewrite (registration_outcome_follows_the_update (P := Lab.platform)
              Demo.ci Demo.agent Demo.session (Some "linux")
              (Lab.boot [Demo.respond 302 ""; Demo.respond 500 ""] true));
    cycle 1; [reflexivity | reflexivity | reflexivity | reflexivity].
Defined.

Lemma secret_is_the_text_of_the_first_argument_witness :
  fst (_get_jnlp_secret Demo.ci Demo.agent Demo.session
         (Lab.boot [Demo.respond 200 Lab.jnlp_two_descriptions] true))
  = Ok (Some "first").
Proof.
  eapply (@secret_is_the_text_of_the_first_argument Lab.platform)
    with (before := [Elem "information" None []])
         (before' := [])
         (after' := [Elem "argument" (Some "second") []])
         (after := [Elem "application-desc" None []]);
    try reflexivity; repeat constructor.
Defined.

Lemma jar_is_downloaded_exactly_when_missing_witness :
  exists fetches rest,
    trace (snd (handle_start
                  (Demo.boot (Demo.metadata "http://ci.example.com/" "u:p")
                             false)))
    = (fetches
       ++ [EvSystem "wget http://ci.example.com/jnlpJars/agent.jar -O /tmp/agent.jar"]
       ++ rest)%list
    /\ Forall metadata_fetch fetches.
Proof.
  edestruct (jar_is_downloaded_exactly_when_missing (P := Demo.platform)
               (Demo.boot (Demo.metadata "http://ci.example.com/" "u:p")
                          false))
    as [_ [fetches [rest [Htrace [Hfetches _]]]]];
    [vm_compute; reflexivity|].
  exists fetches, rest. split; [exact Htrace|exact Hfetches].
Defined.

(** ** The scenarios, run on the scripted world *)

Module Scenarios.

(** Delete answered with 404, node list empty afterwards. *)
Example shutdown_after_earlier_deregistration :
  let run :=
    _deregister_with_jenkins_master Demo.ci Demo.agent (Some "u:p")
      (Demo.boot [Demo.respond 404 ""; Demo.respond 200 Demo.listing_empty]
                 true) in
  fst run = Ok tt
  /\ log (snd run)
     = [(INFO, "De-registering worker agent-7 from Jenkins http://ci.example.com");
        (INFO, "Checking if worker agent-7 is already registered");
        (INFO, "Worker agent-7 already de-registered")].
Proof. vm_compute. split; reflexivity. Qed.

(** Delete answered with 404, node still listed. *)
Example shutdown_fails_when_node_remains :
  fst (_deregister_with_jenkins_master Demo.ci Demo.agent (Some "u:p")
         (Demo.boot [Demo.respond 404 "";
                     Demo.respond 200 Demo.listing_agent_7] true))
  = Raise (HTTPError 404).
Proof. vm_compute. reflexivity. Qed.

(** Node already listed: no create, straight to the secret and the agent. *)
Example start_skips_create_when_listed :
  let run :=
    handle_start
      (Demo.boot (Demo.metadata "http://ci.example.com/" "u:p"
                  ++ [Demo.respond 200 Demo.listing_agent_7;
                      Demo.respond 200 Demo.jnlp_with_secret])
                 true) in
  fst run = Ok tt
  /\ map (fun e => match e with
                   | EvHttp req _ => (method req, url req)
                   | EvSystem command => (GET, command)
                   end)
         (trace (snd run))
     = [(GET, "http://metadata.google.internal/computeMetadata/v1/instance/name");
        (GET, "http://metadata.google.internal/computeMetadata/v1/instance/attributes/JENKINS_URL");
        (GET, "http://metadata.google.internal/computeMetadata/v1/instance/attributes/JNLP_CREDENTIALS");
        (GET, "http://metadata.google.internal/computeMetadata/v1/instance/attributes/JENKINS_AGENT_LABEL");
        (GET, "http://ci.example.com/computer/api/json?tree=computer[displayName]");
        (GET, "http://ci.example.com/computer/agent-7/jenkins-agent.jnlp");
        (GET, "java -jar /tmp/agent.jar -noReconnect -jnlpUrl http://ci.example.com/computer/agent-7/jenkins-agent.jnlp -secret s3cr3t")].
Proof. vm_compute. split; reflexivity. Qed.

(** Node not listed: create, configure, then the secret and the agent. *)
Example start_registers_when_not_listed :
  let run :=
    handle_start
      (Demo.boot (Demo.metadata "http://ci.example.com/" "u:p"
                  ++ [Demo.respond 200 Demo.listing_empty;
                      Demo.respond 302 "";
                      Demo.respond 200 "";
                      Demo.respond 200 Demo.jnlp_with_secret])
                 false) in
  fst run = Ok tt
  /\ map (fun e => match e with
                   | EvHttp req _ => (method req, url req)
                   | EvSystem command => (GET, command)
                   end)
         (skipn 4 (trace (snd run)))
     = [(GET, "wget http://ci.example.com/jnlpJars/agent.jar -O /tmp/agent.jar");
        (GET, "http://ci.example.com/computer/api/json?tree=computer[displayName]");
        (POST, "http://ci.example.com/computer/doCreateItem?name=agent-7");
        (POST, "http://ci.example.com/computer/agent-7/config.xml");
        (GET, "http://ci.example.com/computer/agent-7/jenkins-agent.jnlp");
        (GET, "java -jar /tmp/agent.jar -noReconnect -jnlpUrl http://ci.example.com/computer/agent-7/jenkins-agent.jnlp -secret s3cr3t")].
Proof. vm_compute. split; reflexivity. Qed.

End Scenarios.

(** ** The theorems at concrete inputs *)

Lemma deregister_found_returns_at_once_witness :
  exists st',
    _deregister_with_jenkins_master Demo.ci Demo.agent (Some "u:p")
      (Demo.boot [Demo.respond 302 ""] true)
    = (Ok tt, st')
    /\ List.length (trace st') = 1.
Proof.
  eexists. split.
  - eapply (deregister_found_returns_at_once (P := Demo.platform)
              Demo.ci Demo.agent (Some "u:p")
              (Demo.boot [Demo.respond 302 ""] true));
      reflexivity.
  - reflexivity.
Defined.

Lemma is_already_registered_iff_listed_witness :
  exists st',
    _is_already_registered Demo.ci (Some "agent-7") Demo.session
      (Demo.boot [Demo.respond 200 Demo.listing_agent_7] true)
    = (Ok true, st').
Proof.
  edestruct (is_already_registered_iff_listed (P := Demo.platform)
               Demo.ci "agent-7" Demo.session
               (Demo.boot [Demo.respond 200 Demo.listing_agent_7] true))
    as [registered [st' [Hrun [Hiff _]]]];
    [reflexivity | reflexivity | reflexivity | reflexivity
    | repeat constructor |].
  exists st'. rewrite Hrun. f_equal. f_equal. apply Hiff.
  exists [("displayName", PStr "agent-7")]. split; [now left|reflexivity].
Defined.

Lemma handle_start_creates_iff_unregistered_witness :
  exists evs resp,
    trace (snd (handle_start
                  (Demo.boot (Demo.metadata "http://ci.example.com/" "u:p"
                              ++ [Demo.respond 200 Demo.listing_empty;
                                  Demo.respond 302 "";
                                  Demo.respond 200 "";
                                  Demo.respond 200 Demo.jnlp_with_secret])
                             true)))
    = evs
    /\ In (EvHttp (create_request (P := Demo.platform) Demo.ci
                     (Some "agent-7") (Some "linux") Demo.session) resp)
          evs.
Proof.
  destruct (handle_start_creates_iff_unregistered (P := Demo.platform)
              (Demo.boot (Demo.metadata "http://ci.example.com/" "u:p"
                          ++ [Demo.respond 200 Demo.listing_empty;
                              Demo.respond 302 "";
                              Demo.respond 200 "";
                              Demo.respond 200 Demo.jnlp_with_secret])
                         true))
    as [evs [Htrace [Hcreate _]]].
  destruct (Hcreate {| jenkins_url := Demo.ci;
                       name := Some "agent-7";
                       jnlp_credentials := Some "u:p";
                       jenkins_label := Some "linux" |}
                    Demo.session)
    as [before [resp [rest [after [Hevs _]]]]].
  { eexists. eexists. split; [vm_compute; reflexivity|].
    split; vm_compute; reflexivity. }
  exists evs, resp. split; [exact Htrace|].
  rewrite Hevs. apply in_or_app. right. now left.
Defined.

Lemma loaded_url_has_no_trailing_slash_witness :
  exists data st',
    load_instance_metadata
      (Demo.boot (Demo.metadata "http://ci.example.com/" "u:p") true)
    = (Ok data, st')
    /\ jenkins_url data = "http://ci.example.com".
Proof.
  edestruct (loaded_url_has_no_trailing_slash (P := Demo.platform)
               (Demo.boot (Demo.metadata "http://ci.example.com/" "u:p") true)
               (node_name := "agent-7") (raw := "http://ci.example.com/")
               (credentials := "u:p") (label := "linux"))
    as [data [st' [Hrun [_ [_ Hurl]]]]];
    [eexists; repeat split; reflexivity ..|].
  exists data, st'. split; [exact Hrun|]. apply Hurl. reflexivity.
Defined.

Lemma loaded_url_is_stripped_at_both_ends_witness :
  exists data st',
    load_instance_metadata
      (Demo.boot (Demo.metadata "//ci.example.com/" "u:p") true)
    = (Ok data, st')
    /\ jenkins_url data = "ci.example.com".
Proof.
  edestruct (loaded_url_is_stripped_at_both_ends (P := Demo.platform)
               (Demo.boot (Demo.metadata "//ci.example.com/" "u:p") true)
               (node_name := "agent-7") (raw := "//ci.example.com/")
               (credentials := "u:p") (label := "linux"))
    as [data [st' [Hrun [_ [_ [_ Hurl]]]]]];
    [eexists; repeat split; reflexivity ..|].
  exists data, st'. split; [exact Hrun|]. apply Hurl. reflexivity.
Defined.

Lemma secret_extraction_raises_without_path_witness :
  fst (_get_jnlp_secret Demo.ci (Some "agent-7") Demo.session
         (Demo.boot [Demo.respond 200 Demo.jnlp_without_argument] true))
  = Raise AttributeError.
Proof.
  erewrite (secret_extraction_raises_without_path (P := Demo.platform)
              Demo.ci (Some "agent-7") Demo.session
              (Demo.boot [Demo.respond 200 Demo.jnlp_without_argument] true));
    [reflexivity | reflexivity | reflexivity | reflexivity | reflexivity |].
  intros [desc [argument [Hdesc [_ [Hargument _]]]]].
  destruct Hdesc as [<-|[]]. exact Hargument.
Defined.

Lemma bad_credentials_stop_before_any_session_request_witness :
  get_credentialed_session (Some "nocolon") = Raise ValueError
  /\ get_credentialed_session (Some "u:p:q") = Raise ValueError.
Proof.
  split.
  - apply (bad_credentials_stop_before_any_session_request
             (P := Demo.platform) "nocolon").
    vm_compute. discriminate.
  - apply (bad_credentials_stop_before_any_session_request
             (P := Demo.platform) "u:p:q").
    vm_compute. discriminate.
Defined.
